(** * Advent-of-code helper scripts: a shallow embedding

    The development follows the three Python files of the repository:

    - [scripts/utils.py] locates the repository root;
    - [scripts/download_inputs.py] holds [AOCDownloader], a throttled fetcher
      with an on-disk cache, and the driver that fills the [inputs]
      directory;
    - [scripts/use_day01_as_template.py] expands the day-1 solution file into
      the files of the days 2 to 25.

    Python methods mutate their object and the outside world and may raise.
    They are embedded in a state monad whose result is either a value or an
    exception and whose state survives an exception, as it does in Python.

    What the embedding takes from the environment:

    - [get_repo_dir] has found the repository root: the fetcher and the two
      drivers call it first and go on only when it returns, and every path
      below is taken from the directory it returns, one string per
      component;
    - a [str] is a string of characters with code points below 256;
    - the session and the cache name of a URL are plain path components
      (not empty, without a slash, neither [.] nor [..]), which [pathlib]
      joins as they are, and a path names one file: names are
      case-sensitive and there are no links;
    - the clock readings and the throttle period stay within the range of
      [datetime];
    - files are text files of a POSIX system: written as they are, read
      with universal newlines;
    - the clock moves while the process sleeps and while a request is under
      way, and stands still otherwise. *)

From Stdlib Require Import ZArith Ascii String List Bool Lia.
From Stdlib Require Import Numbers.DecimalString Numbers.DecimalZ.
From stdpp Require Import base option gmap strings list.

Local Open Scope string_scope.
Local Open Scope Z_scope.

(** ** Python values: text *)

Module Text.

(** [str.isspace] on a character whose code point is below 256: the six
    ASCII blanks, the four separators FS GS RS US, NEL and NBSP.  The
    regular-expression class [\s] on [str] patterns is the same set. *)
Definition isspace (c : ascii) : bool :=
  let n := nat_of_ascii c in
  ((9 <=? n)%nat && (n <=? 13)%nat)
  || ((28 <=? n)%nat && (n <=? 32)%nat)
  || (n =? 133)%nat || (n =? 160)%nat.

(** [str.lower] on one character (code points below 256): the ASCII
    capitals and the Latin-1 capitals other than the multiplication sign. *)
Definition lower_char (c : ascii) : ascii :=
  let n := nat_of_ascii c in
  if ((65 <=? n)%nat && (n <=? 90)%nat)
     || ((192 <=? n)%nat && (n <=? 222)%nat && negb (n =? 215)%nat)
  then ascii_of_nat (n + 32) else c.

Fixpoint lower (s : string) : string :=
  match s with
  | EmptyString => EmptyString
  | String c s' => String (lower_char c) (lower s')
  end.

(** [s.startswith(prefix)] *)
Fixpoint startswith (s prefix : string) {struct prefix} : bool :=
  match prefix with
  | EmptyString => true
  | String a prefix' =>
      match s with
      | EmptyString => false
      | String b s' => Ascii.eqb a b && startswith s' prefix'
      end
  end.

(** [sub in s] *)
Fixpoint contains (sub s : string) : bool :=
  startswith s sub
  || match s with
     | EmptyString => false
     | String _ s' => contains sub s'
     end.

Fixpoint lstrip (s : string) : string :=
  match s with
  | EmptyString => EmptyString
  | String c s' => if isspace c then lstrip s' else s
  end.

Fixpoint rstrip (s : string) : string :=
  match s with
  | EmptyString => EmptyString
  | String c s' =>
      match rstrip s' with
      | EmptyString => if isspace c then EmptyString else String c EmptyString
      | r => String c r
      end
  end.

(** [s.strip()] *)
Definition strip (s : string) : string := rstrip (lstrip s).

(** Truth value of a [str]: non-empty. *)
Definition truthy (s : string) : bool :=
  match s with EmptyString => false | _ => true end.

(** Left-to-right rewriting, the common core of [str.replace] and
    [re.sub]: [m] looks for an occurrence at the head of the text and
    answers with its replacement and its length; occurrences do not
    overlap, and the characters no occurrence covers are copied.  [skip]
    counts the characters of the current occurrence still to be dropped. *)
Fixpoint scan (m : string -> option (string * nat)) (skip : nat) (s : string)
  : string :=
  match s with
  | EmptyString => EmptyString
  | String c s' =>
      match skip with
      | S k => scan m k s'
      | O =>
          match m s with
          | Some (new, n) => new +:+ scan m (Nat.pred n) s'
          | None => String c (scan m 0 s')
          end
      end
  end.

Definition literal (old new : string) (s : string) : option (string * nat) :=
  if startswith s old then Some (new, String.length old) else None.

(** [s.replace(old, new)], for a non-empty [old]. *)
Definition replace (old new s : string) : string := scan (literal old new) 0 s.

(** [str(n)] and the format specification [02d] of an [int]. *)
Definition str (n : Z) : string := NilZero.string_of_int (Z.to_int n).

Definition format_02d (n : Z) : string :=
  let s := str n in
  if (String.length s <? 2)%nat then "0" +:+ s else s.

(** Reading a file opened in text mode with the default [newline=None]:
    the line endings CR LF and CR both arrive as LF. *)
Fixpoint universal_newlines (s : string) : string :=
  match s with
  | EmptyString => EmptyString
  | String c s' =>
      if Ascii.eqb c "013" then
        String "010"
          match s' with
          | String c' s'' =>
              if Ascii.eqb c' "010" then universal_newlines s''
              else universal_newlines s'
          | EmptyString => EmptyString
          end
      else String c (universal_newlines s')
  end.

End Text.

(** ** Exceptions and the monad of Python code *)

Inductive exn : Type :=
| HTTPError (status_code : Z)
| ConnectionError
| AttributeError
| TypeError
| ValueError
| OverflowError
| KeyError
| FileNotFoundError
| RuntimeError.

Inductive result (A : Type) : Type :=
| Return (a : A)
| Raise (e : exn).
Arguments Return {A} a.
Arguments Raise {A} e.

Definition M (S A : Type) : Type := S -> result A * S.

Definition ret {S A} (a : A) : M S A := fun s => (Return a, s).
Definition raise {S A} (e : exn) : M S A := fun s => (Raise e, s).
Definition bind {S A B} (m : M S A) (k : A -> M S B) : M S B :=
  fun s => match m s with
           | (Return a, s') => k a s'
           | (Raise e, s') => (Raise e, s')
           end.
Definition get {S} : M S S := fun s => (Return s, s).
Definition put {S} (s : S) : M S unit := fun _ => (Return tt, s).

Notation "x <- m ;; k" := (bind m (fun x => k))
  (at level 100, m at next level, right associativity).
Notation "m ;; k" := (bind m (fun _ => k))
  (at level 100, right associativity).

(** A [for] loop over a list whose body has no [break]. *)
Fixpoint for_each {S A} (l : list A) (body : A -> M S unit) : M S unit :=
  match l with
  | [] => ret tt
  | a :: l' => body a ;; for_each l' body
  end.

(** ** [utils.py] *)

Module Utils.

(** The loop of [get_repo_dir] on the path of the script, taken from the
    file up to the filesystem root: every directory above the script is
    tried, the root included, the nearest first. *)
Fixpoint walk_up (has_cargo_toml : list string -> bool) (upwards : list string)
  : result (list string) :=
  match upwards with
  | [] => Raise RuntimeError
  | _ :: parent =>
      if has_cargo_toml (rev parent) then Return (rev parent)
      else walk_up has_cargo_toml parent
  end.

(** [get_repo_dir()], for the resolved path [script] of the running script,
    from the filesystem root down, and the directories that hold a
    [Cargo.toml]. *)
Definition get_repo_dir (has_cargo_toml : list string -> bool) (script : list string)
  : result (list string) :=
  walk_up has_cargo_toml (rev script).

End Utils.

(** ** The [datetime] values the downloader uses *)

Module Datetime.

Definition is_leap (year : Z) : bool :=
  (year mod 4 =? 0) && (negb (year mod 100 =? 0) || (year mod 400 =? 0)).

Definition days_before_year (year : Z) : Z :=
  let y := year - 1 in y * 365 + y / 4 - y / 100 + y / 400.

Definition days_in_month (year month : Z) : Z :=
  if month =? 2 then (if is_leap year then 29 else 28)
  else if (month =? 4) || (month =? 6) || (month =? 9) || (month =? 11)
       then 30 else 31.

Definition days_before_month (year month : Z) : Z :=
  nth (Z.to_nat month) [0; 0; 31; 59; 90; 120; 151; 181; 212; 243; 273; 304; 334] 0
  + (if (2 <? month) && is_leap year then 1 else 0).

(** Day number of a date, 0001-01-01 being day 1. *)
Definition ymd2ord (year month day : Z) : Z :=
  days_before_year year + days_before_month year month + day.

Definition us_per_second : Z := 1000000.
Definition us_per_hour : Z := 3600 * us_per_second.
Definition us_per_day : Z := 24 * us_per_hour.

(** [timedelta(hours=h)] and [timedelta(seconds=s)], in microseconds. *)
Definition timedelta_hours (h : Z) : Z := h * us_per_hour.
Definition timedelta_seconds (s : Z) : Z := s * us_per_second.

(** An aware [datetime]: the wall-clock reading, in microseconds since
    0001-01-01 00:00 of its own time zone, and the offset of that zone
    from UTC.  The order of the (year, ..., microsecond) fields is the
    order of the readings. *)
Record aware : Type := { wall : Z; utcoffset : Z }.

(** The wall-clock reading of 1970-01-01 00:00. *)
Definition epoch_wall : Z := (719163 - 1) * us_per_day.

(** The constructor of [datetime] reads its integers as C [int]s. *)
Definition fits_int (n : Z) : bool := (-2147483648 <=? n) && (n <=? 2147483647).

(** [datetime(year, month, day, tzinfo=timezone(offset))]: the three
    integers are converted first, which raises [OverflowError] when one of
    them does not fit; the ranges of the date are checked after that. *)
Definition make (year month day offset : Z) : result aware :=
  if negb (fits_int year && fits_int month && fits_int day)
  then Raise OverflowError
  else if (1 <=? year) && (year <=? 9999) && (1 <=? month) && (month <=? 12)
          && (1 <=? day) && (day <=? days_in_month year month)
  then Return {| wall := (ymd2ord year month day - 1) * us_per_day;
                 utcoffset := offset |}
  else Raise ValueError.

(** [datetime.now(tz=timezone(offset))] at the instant [clock], which
    counts microseconds since the Unix epoch. *)
Definition now_tz (offset clock : Z) : aware :=
  {| wall := clock + epoch_wall + offset; utcoffset := offset |}.

(** [a > b] on aware values: the readings are compared when the offsets
    agree, the instants otherwise. *)
Definition gt (a b : aware) : bool :=
  if utcoffset a =? utcoffset b then wall b <? wall a
  else wall b - utcoffset b <? wall a - utcoffset a.

End Datetime.

(** ** The outside world *)

(** A path below the repository root, one string per component. *)
Definition path : Type := list string.

(** What [requests.get] comes back with. *)
Inductive reply : Type :=
| Response (status_code : Z) (text : string)
| Unreachable.

Record exchange : Type := { outcome : reply; latency : N }.

Record World : Type := {
  (** regular files below the repository root, with their content on disk *)
  files : gmap path string;
  (** microseconds since the Unix epoch; a naive [datetime.now()] is read
      off the same clock *)
  clock : Z;
  (** the remote side: the answer to the n-th request of the process, given
      its URL and its session cookie *)
  server : nat -> string -> string -> exchange;
  (** the requests made so far, the latest first *)
  sent : list (string * string);
  (** [os.environ] *)
  environ : gmap string string;
  (** the lines printed so far, the latest first *)
  stdout : list string
}.

Definition set_files (f : gmap path string -> gmap path string) (w : World) : World :=
  {| files := f (files w); clock := clock w; server := server w; sent := sent w;
     environ := environ w; stdout := stdout w |}.

Definition set_clock (t : Z) (w : World) : World :=
  {| files := files w; clock := t; server := server w; sent := sent w;
     environ := environ w; stdout := stdout w |}.

Definition set_sent (l : list (string * string)) (w : World) : World :=
  {| files := files w; clock := clock w; server := server w; sent := l;
     environ := environ w; stdout := stdout w |}.

Definition set_stdout (l : list string) (w : World) : World :=
  {| files := files w; clock := clock w; server := server w; sent := sent w;
     environ := environ w; stdout := l |}.

(** [p.exists()] *)
Definition file_exists (p : path) (w : World) : bool :=
  bool_decide (is_Some (files w !! p)).

(** [p.open().read()] *)
Definition file_read (p : path) : M World string :=
  fun w => match files w !! p with
           | Some data => (Return (Text.universal_newlines data), w)
           | None => (Raise FileNotFoundError, w)
           end.

(** [with p.open("w") as f: f.write(text)], the parent directories having
    been made; on a POSIX system the text reaches the disk as it is. *)
Definition file_write (p : path) (text : string) : M World unit :=
  fun w => (Return tt, set_files (insert p text) w).

(** [time.sleep(d)], [d] in microseconds. *)
Definition sleep (d : Z) : M World unit :=
  fun w => (Return tt, set_clock (clock w + d) w).

(** [requests.get(url, cookies={"session": session})]: the request is
    logged, the clock moves on by the latency of the exchange. *)
Definition requests_get (url session : string) : M World (Z * string) :=
  fun w =>
    let x := server w (length (sent w)) url session in
    let w' := set_sent ((url, session) :: sent w)
                (set_clock (clock w + Z.of_N (latency x)) w) in
    match outcome x with
    | Response status_code text => (Return (status_code, text), w')
    | Unreachable => (Raise ConnectionError, w')
    end.

(** [res.raise_for_status()]: the statuses 400 to 599 raise. *)
Definition status_fails (status_code : Z) : bool :=
  (400 <=? status_code) && (status_code <? 600).

Definition raise_for_status {S} (status_code : Z) : M S unit :=
  if status_fails status_code then raise (HTTPError status_code) else ret tt.

Definition print (line : string) : M World unit :=
  fun w => (Return tt, set_stdout (line :: stdout w) w).

(** ** [class AOCDownloader] *)

Record AOCDownloader : Type := {
  year : Z;
  session_id : string;
  throttle_period : Z;
  wait_until : Z
}.

(** A method runs on its object and on the world. *)
Record State : Type := { self : AOCDownloader; world : World }.

Definition set_wait_until (t : Z) (d : AOCDownloader) : AOCDownloader :=
  {| year := year d; session_id := session_id d;
     throttle_period := throttle_period d; wait_until := t |}.

(** Run a world action from inside a method. *)
Definition in_world {A} (m : M World A) : M State A :=
  fun st => let '(r, w) := m (world st) in (r, {| self := self st; world := w |}).

(** [datetime.datetime.now()] *)
Definition datetime_now : M State Z :=
  fun st => (Return (clock (world st)), st).

(** [AOCDownloader(year, session_id, throttle_period)] *)
Definition init (year : Z) (session_id : option string) (throttle_period : Z)
  : M World AOCDownloader :=
  fun w =>
    let sid :=
      match session_id with
      | Some s => if Text.truthy s then Some s else environ w !! "AOC_SESSION_ID"
      | None => environ w !! "AOC_SESSION_ID"
      end in
    match sid with
    | Some s => (Return {| year := year; session_id := s;
                           throttle_period := throttle_period;
                           wait_until := clock w |}, w)
    | None => (Raise KeyError, w)
    end.

Definition default_throttle_period : Z := Datetime.timedelta_seconds 5.

Definition wait_for_throttle : M State unit :=
  now <- datetime_now ;;
  st <- get ;;
  if now <? wait_until (self st)
  then in_world (sleep (wait_until (self st) - now))
  else ret tt.

Definition reset_throttle : M State unit :=
  now <- datetime_now ;;
  st <- get ;;
  put {| self := set_wait_until (now + throttle_period (self st)) (self st);
         world := world st |}.

(** [repo_dir.joinpath(".cache", self.session_id, url.replace("/", "_"))],
    for a session and a name that [joinpath] takes as one component each. *)
Definition cache_file (session_id url : string) : path :=
  [".cache"; session_id; Text.replace "/" "_" url].

Definition download_file (url : string) : M State string :=
  st <- get ;;
  let cache_file := cache_file (session_id (self st)) url in
  if file_exists cache_file (world st) then in_world (file_read cache_file)
  else
    wait_for_throttle ;;
    res <- in_world (requests_get url (session_id (self st))) ;;
    reset_throttle ;;
    raise_for_status (fst res) ;;
    in_world (file_write cache_file (snd res)) ;;
    ret (snd res).

Definition problem_released (day : Z) : M State bool :=
  st <- get ;;
  let est := Datetime.timedelta_hours (-5) in
  match Datetime.make (year (self st)) 12 day est with
  | Raise e => raise e
  | Return problem_release =>
      let now := Datetime.now_tz est (clock (world st)) in
      ret (Datetime.gt now problem_release)
  end.

Definition input_url (year day : Z) : string :=
  "https://adventofcode.com/" +:+ Text.str year +:+ "/day/" +:+ Text.str day +:+ "/input".

Definition puzzle_url (year day : Z) : string :=
  "https://adventofcode.com/" +:+ Text.str year +:+ "/day/" +:+ Text.str day.

Definition download_input (day : Z) : M State (option string) :=
  released <- problem_released day ;;
  if negb released then ret None
  else
    st <- get ;;
    text <- download_file (input_url (year (self st)) day) ;;
    ret (Some text).

(** ** The parsed page: a [BeautifulSoup] tree *)

Module Soup.

(** A tag with its children, a text node, or a string the page does not
    render (a comment, a declaration, a processing instruction). *)
#[warnings="-register-all"] Inductive node : Type :=
| Tag (name : string) (children : list node)
| NavigableString (s : string)
| Comment (s : string).

(** [n.get_text()]: the text nodes below [n], in order, joined; a text
    node answers with itself and an unrendered string with the empty
    string. *)
Fixpoint get_text (n : node) : string :=
  match n with
  | Tag _ children =>
      (fix all_strings (l : list node) : string :=
         match l with
         | [] => EmptyString
         | c :: l' => get_text c +:+ all_strings l'
         end) children
  | NavigableString s => s
  | Comment _ => EmptyString
  end.

(** A node in its place: [before] holds its previous siblings, the nearest
    first, so that [previous_sibling] is the head of [before] and [None]
    when [before] is empty. *)
Record element : Type := { here : node; before : list node }.

Definition previous_sibling (e : element) : option element :=
  match before e with
  | [] => None
  | n :: l => Some {| here := n; before := l |}
  end.

Definition named (name : string) (n : node) (before : list node) : list element :=
  match n with
  | Tag name' _ =>
      if String.eqb name' name then [{| here := n; before := before |}] else []
  | _ => []
  end.

(** [n.find_all(name)]: the tags called [name] below [n], in document
    order. *)
Fixpoint find_all (name : string) (n : node) : list element :=
  match n with
  | Tag _ children =>
      (fix siblings (before l : list node) : list element :=
         match l with
         | [] => []
         | c :: l' =>
             (named name c before ++ find_all name c
              ++ siblings (c :: before) l')%list
         end) [] children
  | _ => []
  end.

(** What the [bs4] package at hand does: how it parses a page with
    [BeautifulSoup(html, features="lxml")], and whether its strings have a
    [get_text] method, as they do from version 4.10 on; tags always have
    it. *)
Record library : Type := {
  BeautifulSoup : string -> node;
  navigable_get_text : bool
}.

(** [hasattr(n, "get_text")] *)
Definition has_get_text (bs4 : library) (n : node) : bool :=
  match n with
  | Tag _ _ => true
  | _ => navigable_get_text bs4
  end.

End Soup.

Section Downloader.

Variable bs4 : Soup.library.

(** The [while True] loop of [download_examples], started at
    [code_block.previous_sibling]: [chain] is the chain of
    [previous_sibling] links, which ends in [None]; [None] has neither
    [get_text] nor [previous_sibling], so that the loop raises there. *)
Fixpoint previous_paragraph (chain : list Soup.node) : result Soup.node :=
  match chain with
  | [] => Raise AttributeError
  | n :: chain' =>
      if Soup.has_get_text bs4 n && Text.truthy (Text.strip (Soup.get_text n))
      then Return n
      else previous_paragraph chain'
  end.

(** The [for code_block in soup.find_all("pre")] loop. *)
Fixpoint collect_examples (code_blocks : list Soup.element) (examples : list string)
  : result (list string) :=
  match code_blocks with
  | [] => Return examples
  | code_block :: rest =>
      match previous_paragraph (Soup.before code_block) with
      | Raise e => Raise e
      | Return p =>
          if Text.contains "example" (Text.lower (Soup.get_text p))
          then collect_examples rest
                 (examples ++ [Soup.get_text (Soup.here code_block)])%list
          else collect_examples rest examples
      end
  end.

Definition of_result {S A} (r : result A) : M S A := fun s => (r, s).

Definition download_examples (day : Z) : M State (option (list string)) :=
  released <- problem_released day ;;
  if negb released then ret None
  else
    st <- get ;;
    html <- download_file (puzzle_url (year (self st)) day) ;;
    let soup := Soup.BeautifulSoup bs4 html in
    examples <- of_result (collect_examples (Soup.find_all "pre" soup) []) ;;
    ret (Some examples).

(** *** The driver of [download_inputs.py] *)

(** [range(a, b)] *)
Definition range (a b : Z) : list Z := seqZ a (b - a).

(** [enumerate(l)] *)
Definition enumerate {A} (l : list A) : list (Z * A) :=
  zip (seqZ 0 (Z.of_nat (length l))) l.

Definition ends_with (suffix s : string) : bool :=
  (String.length suffix <=? String.length s)%nat
  && String.eqb
       (String.substring (String.length s - String.length suffix)
          (String.length suffix) s)
       suffix.

(** The names in [inputs] that the pattern [dayDD_example*.txt] matches:
    the star stands for any run of characters, the empty one included. *)
Definition example_pattern_matches (day : Z) (name : string) : bool :=
  let stem := "day" +:+ Text.format_02d day +:+ "_example" in
  Text.startswith name stem && ends_with ".txt" name
  && (String.length stem + 4 <=? String.length name)%nat.

Definition glob_examples (day : Z) (w : World) : list path :=
  List.filter
    (fun p => match p with
              | [dir; name] => String.eqb dir "inputs" && example_pattern_matches day name
              | _ => false
              end)
    (map fst (map_to_list (files w))).

Definition example_file (day i : Z) : path :=
  ["inputs"; "day" +:+ Text.format_02d day +:+ "_example" +:+ Text.str (i + 1) +:+ ".txt"].

Definition input_file (day : Z) : path :=
  ["inputs"; "day" +:+ Text.format_02d day +:+ ".txt"].

Definition join_path (p : path) : string := String.concat "/" p.

(** Run a method body on a fresh object; the object is dropped at the end. *)
Definition with_object {A} (d : AOCDownloader) (m : M State A) : M World A :=
  fun w => let '(r, st) := m {| self := d; world := w |} in (r, world st).

Definition sync_examples (day : Z) : M State unit :=
  st <- get ;;
  match glob_examples day (world st) with
  | _ :: _ => ret tt
  | [] =>
      examples <- download_examples day ;;
      match examples with
      | None => raise TypeError
      | Some examples =>
          for_each (enumerate examples)
            (fun '(i, example) =>
               in_world (file_write (example_file day i) example) ;;
               in_world (print ("Saved example " +:+ Text.str i +:+ " of day "
                                +:+ Text.format_02d day)))
      end
  end.

Definition sync_input (day : Z) : M State unit :=
  st <- get ;;
  let output_file := input_file day in
  if file_exists output_file (world st) then ret tt
  else
    text <- download_input day ;;
    match text with
    | Some text =>
        if Text.truthy text then
          in_world (file_write output_file text) ;;
          in_world (print ("Saved day " +:+ Text.str day +:+ " to "
                           +:+ join_path output_file))
        else ret tt
    | None => ret tt
    end.

Definition main : M World unit :=
  downloader <- init 2020 None default_throttle_period ;;
  with_object downloader
    (for_each (range 1 26) sync_examples ;;
     for_each (range 1 26) sync_input).

End Downloader.

(** ** The two patterns of [use_day01_as_template.py] *)

Module Re.

(** The longest run of [\s] at the head of the text, and what follows it. *)
Fixpoint span_space (s : string) : string * string :=
  match s with
  | EmptyString => (EmptyString, EmptyString)
  | String c s' =>
      if Text.isspace c
      then let '(ws, rest) := span_space s' in (String c ws, rest)
      else (EmptyString, s)
  end.

(** The text after a literal, when the text starts with it. *)
Fixpoint after_literal (lit s : string) : option string :=
  match lit, s with
  | EmptyString, _ => Some s
  | String a lit', String b s' =>
      if Ascii.eqb a b then after_literal lit' s' else None
  | String _ _, EmptyString => None
  end.

(** A match, at the head of the text, of the pattern made of the group
    [before], which is [head] and a run of blanks, of [token], and of the
    group [after], which is a run of blanks and a closing brace: the two
    groups.  Each run of blanks is followed by a character that is no blank,
    so the longest run is the only one that can lead to a match. *)
Definition match_here (head token s : string) : option (string * string) :=
  match after_literal head s with
  | None => None
  | Some s1 =>
      let '(ws1, s2) := span_space s1 in
      match after_literal token s2 with
      | None => None
      | Some s3 =>
          let '(ws2, s4) := span_space s3 in
          match after_literal "}" s4 with
          | None => None
          | Some _ => Some (head +:+ ws1, ws2 +:+ "}")
          end
      end
  end.

(** [re.sub] with the pattern above and the replacement that keeps the two
    groups and puts [new] between them. *)
Definition rewrite_token (head token new : string) (s : string)
  : option (string * nat) :=
  match match_here head token s with
  | Some (before, after) =>
      Some (before +:+ new +:+ after,
            (String.length before + String.length token + String.length after)%nat)
  | None => None
  end.

Definition sub (head token new text : string) : string :=
  Text.scan (rewrite_token head token new) 0 text.

End Re.

Module Template.

Definition day_head : string := "fn day(&self) -> i32 {".
Definition implemented_head : string := "fn implemented(&self) -> bool {".

(** The body of the [for] loop of [main], up to the file it writes. *)
Definition expand (day : Z) (template : string) : string :=
  let text :=
    Text.replace "  1" ("  " +:+ Text.str day)
      (Text.replace "Day01" ("Day" +:+ Text.format_02d day) template) in
  let text := Re.sub day_head "1" (Text.str day) text in
  let text := Re.sub implemented_head "true" "false" text in
  text.

Definition solution_file (day : Z) : path :=
  ["src"; "solutions"; "day" +:+ Text.format_02d day +:+ ".rs"].

Definition main : M World unit :=
  template <- file_read (solution_file 1) ;;
  for_each (seqZ 2 24)
    (fun day => file_write (solution_file day) (expand day template)).

End Template.

(** * Vocabulary of the statements *)

(** The fetcher *)

(** The state a cache miss leaves behind once its request is over: the
    request starts when the throttle lets it, the clock moves on by its
    latency, the request is logged, and an answer of the server, whatever
    its status, resets the throttle. *)
Definition requested (url : string) (st : State) : State :=
  let w := world st in
  let d := self st in
  let x := server w (length (sent w)) url (session_id d) in
  let t := Z.max (clock w) (wait_until d) + Z.of_N (latency x) in
  {| self := match outcome x with
             | Response _ _ => set_wait_until (t + throttle_period d) d
             | Unreachable => d
             end;
     world := set_sent ((url, session_id d) :: sent w) (set_clock t w) |}.

(** The instant a request made from [st] completes. *)
Definition completion_time (url : string) (st : State) : Z :=
  Z.max (clock (world st)) (wait_until (self st))
  + Z.of_N (latency (server (world st) (length (sent (world st))) url
                       (session_id (self st)))).

(** The number of requests made between two states. *)
Definition requests_between (st st' : State) : Z :=
  Z.of_nat (length (sent (world st'))) - Z.of_nat (length (sent (world st))).

(** Cache idempotence, the way the specification words it: two fetches in a
    row make one request and give the same result. *)
Definition one_request_same_content (url : string) (st : State) : Prop :=
  let '(r1, st1) := download_file url st in
  let '(r2, st2) := download_file url st1 in
  requests_between st st2 = 1 /\ r2 = r1.

(** The throttle reset, the way the specification words it, for every
    cache-miss fetch: afterwards the deadline is the completion time of the
    request plus the throttle period. *)
Definition deadline_reset_on_miss (url : string) (st : State) : Prop :=
  files (world st) !! cache_file (session_id (self st)) url = None ->
  wait_until (self (snd (download_file url st)))
  = completion_time url st + throttle_period (self st).

Fixpoint no_carriage_return (s : string) : bool :=
  match s with
  | EmptyString => true
  | String c s' => negb (Ascii.eqb c "013") && no_carriage_return s'
  end.

(** The release gate *)

(** Days since 1970-01-01 of a date of the proleptic Gregorian calendar,
    counted era by era (an era is 400 years, that is 146097 days, and starts
    on a first of March). *)
Definition days_from_civil (year month day : Z) : Z :=
  let y := if month <=? 2 then year - 1 else year in
  let era := y / 400 in
  let yoe := y - era * 400 in
  let doy := (153 * ((month + 9) mod 12) + 2) / 5 + day - 1 in
  let doe := yoe * 365 + yoe / 4 - yoe / 100 + doy in
  era * 146097 + doe - 719468.

(** December [day] of [year], 00:00 at UTC-5, in microseconds since the Unix
    epoch: midnight at UTC-5 is 05:00 UTC. *)
Definition release_instant (year day : Z) : Z :=
  days_from_civil year 12 day * Datetime.us_per_day + 5 * Datetime.us_per_hour.

(** Captions and examples *)

(** A text has a character that is no blank. *)
Fixpoint has_text (s : string) : bool :=
  match s with
  | EmptyString => false
  | String c s' => negb (Text.isspace c) || has_text s'
  end.

(** The test of the loop of [download_examples]: the node has a [get_text]
    method, and the text it gives is not blank. *)
Definition renders_text (bs4 : Soup.library) (n : Soup.node) : bool :=
  Soup.has_get_text bs4 n && has_text (Soup.get_text n).

(** [c] is the node the loop of [download_examples] stops at for the block
    [e]: the nearest previous sibling that passes its test. *)
Definition is_caption (bs4 : Soup.library) (e : Soup.element) (c : Soup.node) : Prop :=
  exists skipped rest,
    Soup.before e = (skipped ++ c :: rest)%list
    /\ Forall (fun n => renders_text bs4 n = false) skipped
    /\ renders_text bs4 c = true.

Definition caption (bs4 : Soup.library) (e : Soup.element) : option Soup.node :=
  List.find (renders_text bs4) (Soup.before e).

Definition captioned (bs4 : Soup.library) (e : Soup.element) : bool :=
  match caption bs4 e with Some _ => true | None => false end.

(** The letters A to Z, and they alone, are made small. *)
Definition fold_char (c : ascii) : ascii :=
  let n := nat_of_ascii c in
  if (65 <=? n)%nat && (n <=? 90)%nat then ascii_of_nat (n + 32) else c.

Fixpoint fold_case (s : string) : string :=
  match s with
  | EmptyString => EmptyString
  | String c s' => String (fold_char c) (fold_case s')
  end.

(** A text contains the word, whatever the case of its letters. *)
Definition mentions (word s : string) : Prop :=
  exists pre w post, s = pre +:+ w +:+ post /\ fold_case w = word.

(** Every character of the text is below 128. *)
Fixpoint is_ascii (s : string) : bool :=
  match s with
  | EmptyString => true
  | String c s' => (nat_of_ascii c <? 128)%nat && is_ascii s'
  end.

(** The blocks kept, for the caption the loop stops at. *)
Definition is_example (bs4 : Soup.library) (e : Soup.element) : bool :=
  match caption bs4 e with
  | Some c => Text.contains "example" (fold_case (Soup.get_text c))
  | None => false
  end.

Definition rendered (e : Soup.element) : string := Soup.get_text (Soup.here e).

(** The caption, the way the specification words it: the nearest preceding
    sibling that has a renderable text that is not blank, whatever kind of
    node it is. *)
Definition has_renderable_text (n : Soup.node) : bool := has_text (Soup.get_text n).

Definition is_worded_caption (e : Soup.element) (c : Soup.node) : Prop :=
  exists skipped rest,
    Soup.before e = (skipped ++ c :: rest)%list
    /\ Forall (fun n => has_renderable_text n = false) skipped
    /\ has_renderable_text c = true.

Definition worded_caption (e : Soup.element) : option Soup.node :=
  List.find has_renderable_text (Soup.before e).

Definition is_worded_example (e : Soup.element) : bool :=
  match worded_caption e with
  | Some c => Text.contains "example" (fold_case (Soup.get_text c))
  | None => false
  end.

(** The list the specification describes for a parsed page: the rendered
    text of the blocks whose caption mentions the word, in document order. *)
Definition worded_examples (soup : Soup.node) : list string :=
  map rendered (List.filter is_worded_example (Soup.find_all "pre" soup)).

(** The claim on the examples, as it is worded: whenever the page of the day
    is fetched and [download_examples] returns a list, it is that list. *)
Definition returns_worded_examples (bs4 : Soup.library) (day : Z) (st : State) : Prop :=
  forall html st1 examples,
    download_file (puzzle_url (year (self st)) day) st = (Return html, st1) ->
    download_examples bs4 day st = (Return (Some examples), st1) ->
    examples = worded_examples (Soup.BeautifulSoup bs4 html).

(** The driver *)

(** What a stretch of the program does, as far as the driver is concerned:
    the year of the downloader stays, no file goes away, and the requests
    added to the log all avoid the URL [target]. *)
Record evolves (target : string) (st st' : State) : Prop := {
  evolves_year : year (self st') = year (self st);
  evolves_session : session_id (self st') = session_id (self st);
  evolves_files :
    forall p, is_Some (files (world st) !! p) -> is_Some (files (world st') !! p);
  evolves_sent :
    exists new, sent (world st') = (new ++ sent (world st))%list
                /\ Forall (fun r => fst r <> target) new
}.

(** The requests of a run all avoid the URL [target]. *)
Definition new_requests_avoid (target : string) (w w' : World) : Prop :=
  exists new, sent w' = (new ++ sent w)%list /\ Forall (fun r => fst r <> target) new.

(** The property the specification words as idempotence of the driver: a
    second run, started at the instant [later] on the files the first run
    left, leaves the files as they are. *)
Definition second_run_writes_nothing
    (bs4 : Soup.library) (w : World) (later : Z) : Prop :=
  let w1 := snd (main bs4 w) in
  files (snd (main bs4 (set_clock later w1))) = files w1.

(** The template expander *)

(** The pattern of [Re.match_here] finds no match anywhere in the text. *)
Definition no_match (head token text : string) : Prop :=
  forall a b, text = a +:+ b -> Re.match_here head token b = None.


(** The character does not occur in the text. *)
Fixpoint avoids (c : ascii) (s : string) : bool :=
  match s with
  | EmptyString => true
  | String a s' => negb (Ascii.eqb a c) && avoids c s'
  end.



(** The places of a template that the expander rewrites. *)
Inductive item : Type :=
| Label
| DayFunction (ws1 ws2 : string)
| ImplementedFunction (ws1 ws2 : string)
| IndentedOne.


Definition item_target (day : Z) (i : item) : string :=
  match i with
  | Label => "Day" +:+ Text.format_02d day
  | DayFunction ws1 ws2 =>
      Template.day_head +:+ ws1 +:+ Text.str day +:+ ws2 +:+ "}"
  | ImplementedFunction ws1 ws2 =>
      Template.implemented_head +:+ ws1 +:+ "false" +:+ ws2 +:+ "}"
  | IndentedOne => "  " +:+ Text.str day
  end.





Fixpoint target (day : Z) (l : list (item * string)) : string :=
  match l with
  | [] => EmptyString
  | (i, q) :: l' => item_target day i +:+ q +:+ target day l'
  end.









(** * Vocabulary of the further properties

    The properties below are read off the code of the three files, beyond
    the statements of the specification: the construction of the
    downloader, the throttle, the two passes of the driver as a whole, the
    files the expander touches, and the search for the repository root.
    The command-line wrappers [arg_main] of the two scripts are not
    embedded: around [main] they only add the option parser and, under
    [--pdb], an interactive post-mortem session before the exception is
    raised again. *)

(** A request the driver may send: the puzzle page or the input of a day
    from 1 to 25 of the year, with the session cookie. *)
Definition driver_request (year : Z) (session : string) (r : string * string) : Prop :=
  snd r = session
  /\ exists day, 1 <= day <= 25
                 /\ (fst r = puzzle_url year day \/ fst r = input_url year day).

(** What a stretch of the program may do: the downloader keeps its year,
    its session and its period; every file of before is still there with
    its content; at most [n] requests are added to the log, each of them
    allowed by [allowed]; the clock does not go back. *)
Record proceeds (allowed : string * string -> Prop) (n : nat) (st st' : State)
  : Prop := {
  proceeds_year : year (self st') = year (self st);
  proceeds_session : session_id (self st') = session_id (self st);
  proceeds_period : throttle_period (self st') = throttle_period (self st);
  proceeds_files : files (world st) ⊆ files (world st');
  proceeds_sent :
    exists new, sent (world st') = (new ++ sent (world st))%list
                /\ (length new <= n)%nat /\ Forall allowed new;
  proceeds_clock : clock (world st) <= clock (world st')
}.






(** The line the driver prints for the example [i] of a day. *)
Definition saved_example (day i : Z) : string :=
  "Saved example " +:+ Text.str i +:+ " of day " +:+ Text.format_02d day.

(** The directories above a path, the path itself left out. *)
Definition above (dir script : list string) : Prop :=
  exists below, below <> [] /\ script = (dir ++ below)%list.

(** The loop of the driver that saves the examples of a day, on the
    numbered examples. *)
Definition save_examples (day : Z) (numbered : list (Z * string)) : M State unit :=
  for_each numbered
    (fun '(i, example) =>
       in_world (file_write (example_file day i) example) ;;
       in_world (print (saved_example day i))).

(** The requests made since [st0] are paced: the period is the one of
    [st0], and with [n] requests made since then at least [n - 1] periods
    have passed. *)
Record paced (st0 st : State) : Prop := {
  paced_period : throttle_period (self st) = throttle_period (self st0);
  paced_clock :
    clock (world st0) + throttle_period (self st0) * (requests_between st0 st - 1)
    <= clock (world st)
}.

(** The deadline accounts for every request made since [st0]. *)
Definition throttled (st0 st : State) : Prop :=
  clock (world st0) + throttle_period (self st0) * requests_between st0 st
  <= wait_until (self st).

(** A stretch of the program keeps the pace: the requests stay paced, and
    the deadline is up to date whenever the stretch returns. *)
Definition keeps_pace {A} (st0 : State) (m : M State A) : Prop :=
  forall st, paced st0 st -> throttled st0 st ->
             paced st0 (snd (m st))
             /\ (forall a, fst (m st) = Return a -> throttled st0 (snd (m st))).

(** The exception a fetch ends with, for an exchange that gives no page: a
    server that cannot be reached, or a status that does not pass. *)
Definition failure (x : exchange) : option exn :=
  match outcome x with
  | Unreachable => Some ConnectionError
  | Response status_code _ =>
      if status_fails status_code then Some (HTTPError status_code) else None
  end.

(** * Scenarios *)

Definition answers (status_code : Z) (text : string) : nat -> string -> string -> exchange :=
  fun _ _ _ => {| outcome := Response status_code text; latency := 250000 |}.

(** 2020-12-15 02:40:00 UTC *)
Definition mid_december : Z := 1608000000000000.

(** 2020-11-30 12:00:00 UTC, before the first puzzle is out. *)
Definition end_of_november : Z := 1606737600000000.

Definition a_world (files : gmap path string) (server : nat -> string -> string -> exchange)
  : World :=
  {| files := files; clock := mid_december; server := server; sent := [];
     environ := {[ "AOC_SESSION_ID" := "53616c" ]}; stdout := [] |}.

Definition a_downloader : AOCDownloader :=
  {| year := 2020; session_id := "53616c";
     throttle_period := default_throttle_period; wait_until := mid_december |}.

Definition a_state (files : gmap path string) (server : nat -> string -> string -> exchange)
  : State :=
  {| self := a_downloader; world := a_world files server |}.

Definition day1_url : string := "https://adventofcode.com/2020/day/1".

(** The server is down with status 500. *)
Definition st_server_error : State := a_state ∅ (answers 500 "Internal Server Error").

(** The page is in the cache before the first fetch. *)
Definition st_already_cached : State :=
  a_state {[ cache_file "53616c" day1_url := "<pre>1721</pre>" ]} (answers 200 "<pre>1721</pre>").

(** The page comes with CR LF line ends. *)
Definition crlf_page : string :=
  "<pre>1721" +:+ String "013" (String "010" "979</pre>").
Definition st_crlf : State := a_state ∅ (answers 200 crlf_page).

Definition st_plain : State := a_state ∅ (answers 200 "<pre>1721</pre>").

(** An article of a puzzle page: two captioned blocks, the first one an
    example, with blank text nodes and a comment in between. *)
Definition article : Soup.node :=
  Soup.Tag "article"
    [ Soup.Tag "p" [Soup.NavigableString "For Example:"];
      Soup.NavigableString (String "010" EmptyString);
      Soup.Comment "sample";
      Soup.Tag "pre" [Soup.Tag "code" [Soup.NavigableString "1721"]];
      Soup.Tag "p" [Soup.NavigableString "Your puzzle answer was"];
      Soup.Tag "pre" [Soup.NavigableString "514579"] ].

(** A page whose block comes first among its siblings. *)
Definition headless : Soup.node :=
  Soup.Tag "article"
    [ Soup.NavigableString (String "010" EmptyString);
      Soup.Tag "pre" [Soup.NavigableString "1721"] ].

(** A block whose nearest sibling with text is a bare text node. *)
Definition aside : Soup.node :=
  Soup.Tag "article"
    [ Soup.Tag "p" [Soup.NavigableString "For example:"];
      Soup.NavigableString "see the list";
      Soup.Tag "pre" [Soup.NavigableString "1721"] ].

(** A [bs4] of today that parses every page as [soup], and one of 2020. *)
Definition parse_as (soup : Soup.node) : Soup.library :=
  {| Soup.BeautifulSoup := fun _ => soup; Soup.navigable_get_text := true |}.

Definition parse_as_in_2020 (soup : Soup.node) : Soup.library :=
  {| Soup.BeautifulSoup := fun _ => soup; Soup.navigable_get_text := false |}.

(** The puzzle page of day 1 is in the cache and parses as [soup]. *)
Definition st_page_cached : State :=
  a_state {[ cache_file "53616c" day1_url := "<article>" ]} (answers 200 "<article>").

(** The examples of all the days are at hand, no input is, and the first
    puzzle is not out yet. *)
Definition examples_at_hand : gmap path string :=
  list_to_map (map (fun day => (example_file day 0, "1721")) (range 1 26)).

Definition w_november : World :=
  {| files := examples_at_hand; clock := end_of_november;
     server := answers 200 "1721"; sent := [];
     environ := {[ "AOC_SESSION_ID" := "53616c" ]}; stdout := [] |}.

(** A solution file without functions to rewrite. *)
Definition w_bare_template : World :=
  a_world {[ Template.solution_file 1 := "pub struct Day01;" ]} (answers 200 "ok").




(** Where the scripts of a checkout may live. *)
Definition a_script : list string := ["home"; "me"; "aoc"; "scripts"; "download_inputs.py"].
Definition in_aoc (dir : list string) : bool :=
  bool_decide (dir = ["home"; "me"; "aoc"]).

(** * Further scenarios *)

(** The network is down: every request times out after thirty seconds. *)
Definition offline : nat -> string -> string -> exchange :=
  fun _ _ _ => {| outcome := Unreachable; latency := 30000000 |}.
Definition st_offline : State := a_state ∅ offline.

(** A fresh checkout, the day before the first puzzle. *)
Definition w_fresh_november : World :=
  {| files := ∅; clock := end_of_november;
     server := answers 200 "1721"; sent := [];
     environ := {[ "AOC_SESSION_ID" := "53616c" ]}; stdout := [] |}.

(** No session in the environment. *)
Definition w_no_session : World :=
  {| files := ∅; clock := mid_december;
     server := answers 200 "1721"; sent := [];
     environ := ∅; stdout := [] |}.

(** The server answers every request with an empty body. *)
Definition st_empty_body : State := a_state ∅ (answers 200 EmptyString).

(** A checkout inside another one: both hold a [Cargo.toml]. *)
Definition in_aoc_or_home (dir : list string) : bool :=
  bool_decide (dir = ["home"; "me"; "aoc"]) || bool_decide (dir = ["home"]).

(** The first puzzle is out, its page cannot be had. *)
Definition w_december_down : World :=
  {| files := ∅; clock := mid_december;
     server := answers 503 "Service Unavailable"; sent := [];
     environ := {[ "AOC_SESSION_ID" := "53616c" ]}; stdout := [] |}.

(** * Text *)

Lemma app_cons c s t : String c s +:+ t = String c (s +:+ t).
Proof. reflexivity. Qed.

Lemma app_nil_l t : EmptyString +:+ t = t.
Proof. reflexivity. Qed.

Lemma app_assoc' (s t u : string) : (s +:+ t) +:+ u = s +:+ t +:+ u.
Proof. induction s as [|c s IH]; [reflexivity|]. rewrite !app_cons, IH. reflexivity. Qed.


(** * The repository root *)

Lemma walk_up_found has_cargo_toml upwards dir :
  Utils.walk_up has_cargo_toml upwards = Return dir ->
  has_cargo_toml dir = true
  /\ exists below, below <> [] /\ rev upwards = (dir ++ below)%list.
Proof.
  induction upwards as [|x parent IH]; simpl; [discriminate|].
  destruct (has_cargo_toml (rev parent)) eqn:E.
  - intros [= <-]. split; [exact E|]. exists [x]. split; [discriminate|reflexivity].
  - intros H. destruct (IH H) as (Hd & below & Hb & Hrev). split; [exact Hd|].
    exists (below ++ [x])%list. split; [destruct below; discriminate|].
    rewrite Hrev, <- app_assoc. reflexivity.
Qed.

(** The directory that [get_repo_dir] returns holds a [Cargo.toml] and lies
    above the script. *)
Lemma get_repo_dir_found has_cargo_toml script dir :
  Utils.get_repo_dir has_cargo_toml script = Return dir ->
  has_cargo_toml dir = true
  /\ exists below, below <> [] /\ script = (dir ++ below)%list.
Proof.
  unfold Utils.get_repo_dir. intros H.
  destruct (walk_up_found _ _ _ H) as (Hd & below & Hb & Hrev).
  rewrite rev_involutive in Hrev. eauto.
Qed.

Example get_repo_dir_aoc :
  Utils.get_repo_dir in_aoc a_script = Return ["home"; "me"; "aoc"]
  /\ Utils.get_repo_dir (fun _ => false) a_script = Raise RuntimeError.
Proof. split; reflexivity. Qed.

(** * The throttled, cached fetcher *)

Lemma file_exists_true p w : file_exists p w = true <-> is_Some (files w !! p).
Proof. unfold file_exists. apply bool_decide_eq_true. Qed.

Lemma file_exists_false p w : file_exists p w = false <-> files w !! p = None.
Proof.
  unfold file_exists. rewrite bool_decide_eq_false, <- eq_None_not_Some. tauto.
Qed.

(** The cache-hit path: the file is read, nothing else happens. *)
Lemma download_file_hit url st data :
  files (world st) !! cache_file (session_id (self st)) url = Some data ->
  download_file url st = (Return (Text.universal_newlines data), st).
Proof.
  intros H. destruct st as [d w]. unfold download_file, bind, get. simpl in *.
  assert (E : file_exists (cache_file (session_id d) url) w = true).
  { apply file_exists_true. eauto. }
  rewrite E. unfold in_world, file_read. simpl. rewrite H. reflexivity.
Qed.

(** The cache-miss path, run to its end. *)
Lemma download_file_miss url st :
  files (world st) !! cache_file (session_id (self st)) url = None ->
  download_file url st =
    match outcome (server (world st) (length (sent (world st))) url
                     (session_id (self st))) with
    | Unreachable => (Raise ConnectionError, requested url st)
    | Response status_code text =>
        if status_fails status_code
        then (Raise (HTTPError status_code), requested url st)
        else (Return text,
              {| self := self (requested url st);
                 world := set_files (insert (cache_file (session_id (self st)) url) text)
                            (world (requested url st)) |})
    end.
Proof.
  intros H. destruct st as [d w]. unfold download_file, bind, get. simpl in *.
  apply file_exists_false in H. rewrite H.
  unfold requested, wait_for_throttle, bind, datetime_now, get, in_world, sleep,
    requests_get, reset_throttle, put, raise_for_status, file_write, ret, raise.
  simpl.
  assert (Hc : (if clock w <? wait_until d
                then clock w + (wait_until d - clock w) else clock w)
               = Z.max (clock w) (wait_until d)).
  { destruct (Z.ltb_spec (clock w) (wait_until d)); lia. }
  destruct (clock w <? wait_until d) eqn:E; simpl;
    destruct (server w (length (sent w)) url (session_id d)) as [[sc text|] lat]; simpl;
    rewrite <- Hc; try destruct (status_fails sc); simpl; reflexivity.
Qed.

Lemma requested_sent url st :
  sent (world (requested url st)) = (url, session_id (self st)) :: sent (world st).
Proof. reflexivity. Qed.

Lemma requested_files url st : files (world (requested url st)) = files (world st).
Proof. reflexivity. Qed.

Lemma requested_clock url st : clock (world (requested url st)) = completion_time url st.
Proof. reflexivity. Qed.

Lemma requested_session url st :
  session_id (self (requested url st)) = session_id (self st).
Proof. unfold requested. simpl. destruct (outcome _); reflexivity. Qed.

Lemma universal_newlines_id s :
  no_carriage_return s = true -> Text.universal_newlines s = s.
Proof.
  induction s as [|c s IH]; simpl; [reflexivity|].
  intros H. apply andb_true_iff in H as [Hc Hs].
  apply negb_true_iff in Hc. rewrite Hc, IH by assumption. reflexivity.
Qed.

Lemma download_file_miss_ok url st status_code text lat :
  files (world st) !! cache_file (session_id (self st)) url = None ->
  server (world st) (length (sent (world st))) url (session_id (self st))
  = {| outcome := Response status_code text; latency := lat |} ->
  status_fails status_code = false ->
  download_file url st
  = (Return text,
     {| self := self (requested url st);
        world := set_files (insert (cache_file (session_id (self st)) url) text)
                   (world (requested url st)) |}).
Proof.
  intros Hmiss Hsrv Hok. rewrite download_file_miss by assumption.
  rewrite Hsrv. simpl. rewrite Hok. reflexivity.
Qed.

Lemma download_file_miss_fails url st status_code text lat :
  files (world st) !! cache_file (session_id (self st)) url = None ->
  server (world st) (length (sent (world st))) url (session_id (self st))
  = {| outcome := Response status_code text; latency := lat |} ->
  status_fails status_code = true ->
  download_file url st = (Raise (HTTPError status_code), requested url st).
Proof.
  intros Hmiss Hsrv Hbad. rewrite download_file_miss by assumption.
  rewrite Hsrv. simpl. rewrite Hbad. reflexivity.
Qed.

(** After a fetch that went to the network and succeeded, any URL with the
    same cache file is served from the disk, and the state stays as it is. *)
Lemma download_file_after_miss url url' st status_code text lat :
  files (world st) !! cache_file (session_id (self st)) url = None ->
  server (world st) (length (sent (world st))) url (session_id (self st))
  = {| outcome := Response status_code text; latency := lat |} ->
  status_fails status_code = false ->
  Text.replace "/" "_" url' = Text.replace "/" "_" url ->
  exists st1,
    download_file url st = (Return text, st1)
    /\ requests_between st st1 = 1
    /\ download_file url' st1 = (Return (Text.universal_newlines text), st1).
Proof.
  intros Hmiss Hsrv Hok Hsame. eexists. split; [|split].
  - eapply download_file_miss_ok; eassumption.
  - unfold requests_between. simpl. lia.
  - apply download_file_hit. unfold set_files. cbn [self world files].
    rewrite requested_session.
    unfold cache_file. rewrite Hsame. apply lookup_insert_eq.
Qed.

(** X26.  What the cache does.  When the cache file of a URL exists,
    [download_file] returns what a text-mode read of that file gives, and
    the state, hence the log of requests and [wait_until], is unchanged.
    When the file is absent and the request is answered with a status that
    does not raise, the first fetch returns the body after one request and
    a second fetch makes no request; it returns the body as read back from
    the cache, which is the first result when the body holds no carriage
    return. *)
Theorem cache_hit_and_idempotence url st :
  (forall data,
      files (world st) !! cache_file (session_id (self st)) url = Some data ->
      download_file url st = (Return (Text.universal_newlines data), st))
  /\ (forall status_code text lat,
         files (world st) !! cache_file (session_id (self st)) url = None ->
         server (world st) (length (sent (world st))) url (session_id (self st))
         = {| outcome := Response status_code text; latency := lat |} ->
         status_fails status_code = false ->
         (exists st1,
             download_file url st = (Return text, st1)
             /\ requests_between st st1 = 1
             /\ download_file url st1 = (Return (Text.universal_newlines text), st1))
         /\ (no_carriage_return text = true -> one_request_same_content url st)).
Proof.
  split.
  - intros data H. apply download_file_hit, H.
  - intros sc text lat Hmiss Hsrv Hok.
    destruct (download_file_after_miss url url st sc text lat Hmiss Hsrv Hok eq_refl)
      as (st1 & H1 & Hn & H2).
    split; [eauto|].
    intros Hcr. unfold one_request_same_content.
    rewrite H1, H2, universal_newlines_id by assumption. split; [assumption|reflexivity].
Qed.

Lemma cache_hit_and_idempotence_witness :
  download_file day1_url st_already_cached
  = (Return "<pre>1721</pre>", st_already_cached)
  /\ one_request_same_content day1_url st_plain.
Proof.
  split.
  - apply (proj1 (cache_hit_and_idempotence day1_url st_already_cached)
             "<pre>1721</pre>").
    vm_compute. reflexivity.
  - apply (proj2 (cache_hit_and_idempotence day1_url st_plain)
             200 "<pre>1721</pre>" 250000%N); vm_compute; reflexivity.
Defined.

(** Two fetches in a row when the server answers 500: both raise, and two
    requests are sent. *)
Example two_fetches_server_error :
  download_file day1_url st_server_error
  = (Raise (HTTPError 500), requested day1_url st_server_error)
  /\ download_file day1_url (requested day1_url st_server_error)
     = (Raise (HTTPError 500),
        requested day1_url (requested day1_url st_server_error))
  /\ requests_between st_server_error
       (requested day1_url (requested day1_url st_server_error)) = 2.
Proof. repeat split; vm_compute; reflexivity. Qed.

(** Two fetches in a row when the cache file is there: no request is sent. *)
Example two_fetches_already_cached :
  download_file day1_url st_already_cached
  = (Return "<pre>1721</pre>", st_already_cached)
  /\ requests_between st_already_cached st_already_cached = 0.
Proof. split; vm_compute; reflexivity. Qed.

(** C1.  The claim fails on a body with a CR LF line end.  On an empty
    cache, with a server that answers 200 with such a body, the first fetch
    returns the body as it came and writes it to the cache file as it came;
    the second fetch sends no request and returns what a text-mode read of
    the file gives, with LF for CR LF: this is neither the content of the
    file nor the result of the first fetch. *)
Theorem cached_body_is_not_byte_identical :
  fst (download_file day1_url st_crlf) = Return crlf_page
  /\ files (world (snd (download_file day1_url st_crlf)))
     !! cache_file "53616c" day1_url = Some crlf_page
  /\ fst (download_file day1_url (snd (download_file day1_url st_crlf)))
     = Return ("<pre>1721" +:+ String "010" "979</pre>")
  /\ requests_between st_crlf
       (snd (download_file day1_url (snd (download_file day1_url st_crlf)))) = 1
  /\ ~ one_request_same_content day1_url st_crlf.
Proof.
  repeat split; try (vm_compute; reflexivity).
  vm_compute. intros [H1 H2]. discriminate.
Qed.

(** C2 (amended).  On a cache miss whose request is answered, the throttle
    deadline is the completion time of the request plus the throttle period,
    and this whether the status passes the check or raises: the reset comes
    first. *)
Theorem throttle_reset_before_status_check url st status_code text lat :
  files (world st) !! cache_file (session_id (self st)) url = None ->
  server (world st) (length (sent (world st))) url (session_id (self st))
  = {| outcome := Response status_code text; latency := lat |} ->
  clock (world (snd (download_file url st))) = completion_time url st
  /\ wait_until (self (snd (download_file url st)))
     = completion_time url st + throttle_period (self st)
  /\ (status_fails status_code = true ->
      fst (download_file url st) = Raise (HTTPError status_code))
  /\ (status_fails status_code = false ->
      fst (download_file url st) = Return text).
Proof.
  intros Hmiss Hsrv. rewrite download_file_miss by assumption.
  rewrite Hsrv. simpl.
  destruct (status_fails status_code); simpl; unfold completion_time;
    rewrite Hsrv; simpl; repeat split; intros; try reflexivity; discriminate.
Qed.

Lemma throttle_reset_before_status_check_witness :
  wait_until (self (snd (download_file day1_url st_server_error)))
  = mid_december + 250000 + 5000000
  /\ fst (download_file day1_url st_server_error) = Raise (HTTPError 500).
Proof.
  destruct (throttle_reset_before_status_check day1_url st_server_error
              500 "Internal Server Error" 250000%N) as (_ & Hw & Hr & _).
  - vm_compute. reflexivity.
  - vm_compute. reflexivity.
  - split; [rewrite Hw; vm_compute; reflexivity | apply Hr; vm_compute; reflexivity].
Defined.

(** C2, as it is worded for every cache-miss fetch, fails when the server
    cannot be reached: [requests.get] raises, the reset is not run, and the
    deadline is the one of before, thirty-five seconds short of the
    completion time of the request plus the period. *)
Lemma transport_failure_skips_the_reset :
  fst (download_file day1_url st_offline) = Raise ConnectionError
  /\ wait_until (self (snd (download_file day1_url st_offline))) = mid_december
  /\ completion_time day1_url st_offline + throttle_period (self st_offline)
     = mid_december + 35000000
  /\ ~ deadline_reset_on_miss day1_url st_offline.
Proof.
  repeat split; try (vm_compute; reflexivity).
  intros H. specialize (H ltac:(vm_compute; reflexivity)).
  vm_compute in H. discriminate.
Qed.

(** C3.  On a cache miss answered with a failing status, [download_file]
    raises [HTTPError]; the files are the ones of before, so the cache file
    is still absent and the next fetch of the URL goes to the network
    again. *)
Theorem failed_fetch_raises_and_caches_nothing url st status_code text lat :
  files (world st) !! cache_file (session_id (self st)) url = None ->
  server (world st) (length (sent (world st))) url (session_id (self st))
  = {| outcome := Response status_code text; latency := lat |} ->
  status_fails status_code = true ->
  exists st',
    download_file url st = (Raise (HTTPError status_code), st')
    /\ files (world st') = files (world st)
    /\ file_exists (cache_file (session_id (self st')) url) (world st') = false
    /\ requests_between st' (snd (download_file url st')) = 1.
Proof.
  intros Hmiss Hsrv Hbad. exists (requested url st).
  assert (Hmiss' : files (world (requested url st))
                   !! cache_file (session_id (self (requested url st))) url = None).
  { rewrite requested_session, requested_files. assumption. }
  repeat split.
  - eapply download_file_miss_fails; eassumption.
  - apply file_exists_false, Hmiss'.
  - rewrite (download_file_miss url (requested url st) Hmiss').
    unfold requests_between.
    destruct (outcome _) as [sc' text'|]; [destruct (status_fails sc')|];
      simpl; lia.
Qed.

Lemma failed_fetch_raises_and_caches_nothing_witness :
  exists st',
    download_file day1_url st_server_error = (Raise (HTTPError 500), st')
    /\ files (world st') = files (world st_server_error)
    /\ file_exists (cache_file (session_id (self st')) day1_url) (world st') = false
    /\ requests_between st' (snd (download_file day1_url st')) = 1.
Proof.
  apply (failed_fetch_raises_and_caches_nothing day1_url st_server_error
           500 "Internal Server Error" 250000%N); vm_compute; reflexivity.
Defined.

(** C10.  Replacing every slash by an underscore is not injective: two
    distinct URLs share their cache file under every session.  Whenever two
    URLs do, a fetch of the first that went to the network and succeeded
    makes a fetch of the second return the cached body of the first, as
    read from the disk, and leave the state, hence the log of requests,
    unchanged. *)
Theorem cache_path_not_injective :
  (exists url1 url2,
      url1 <> url2 /\ forall sid, cache_file sid url1 = cache_file sid url2)
  /\ (forall url1 url2 st status_code text lat,
         cache_file (session_id (self st)) url1 = cache_file (session_id (self st)) url2 ->
         files (world st) !! cache_file (session_id (self st)) url1 = None ->
         server (world st) (length (sent (world st))) url1 (session_id (self st))
         = {| outcome := Response status_code text; latency := lat |} ->
         status_fails status_code = false ->
         exists st1,
           download_file url1 st = (Return text, st1)
           /\ files (world st1) !! cache_file (session_id (self st1)) url2 = Some text
           /\ download_file url2 st1 = (Return (Text.universal_newlines text), st1)).
Proof.
  split.
  - exists "https://adventofcode.com/2020/day/1", "https://adventofcode.com/2020_day/1".
    split; [discriminate|]. intros sid.
    assert (E : Text.replace "/" "_" "https://adventofcode.com/2020/day/1"
                = Text.replace "/" "_" "https://adventofcode.com/2020_day/1")
      by (vm_compute; reflexivity).
    unfold cache_file. rewrite E. reflexivity.
  - intros url1 url2 st sc text lat Hsame Hmiss Hsrv Hok.
    assert (Hrep : Text.replace "/" "_" url2 = Text.replace "/" "_" url1).
    { unfold cache_file in Hsame. congruence. }
    assert (Hfile : forall st1,
               st1 = {| self := self (requested url1 st);
                        world := set_files
                                   (insert (cache_file (session_id (self st)) url1) text)
                                   (world (requested url1 st)) |} ->
               files (world st1) !! cache_file (session_id (self st1)) url2 = Some text).
    { intros st1 ->. unfold set_files. cbn [self world files].
      rewrite requested_session. unfold cache_file. rewrite Hrep.
      apply lookup_insert_eq. }
    eexists. split; [eapply download_file_miss_ok; eassumption|].
    split; [apply Hfile; reflexivity|].
    apply download_file_hit, Hfile. reflexivity.
Qed.

Lemma cache_path_not_injective_witness :
  exists st1,
    download_file "https://adventofcode.com/2020/day/1" st_plain
    = (Return "<pre>1721</pre>", st1)
    /\ files (world st1) !! cache_file (session_id (self st1))
                              "https://adventofcode.com/2020_day/1"
       = Some "<pre>1721</pre>"
    /\ download_file "https://adventofcode.com/2020_day/1" st1
       = (Return (Text.universal_newlines "<pre>1721</pre>"), st1).
Proof.
  apply (proj2 cache_path_not_injective
           "https://adventofcode.com/2020/day/1" "https://adventofcode.com/2020_day/1"
           st_plain 200 "<pre>1721</pre>" 250000%N); vm_compute; reflexivity.
Defined.

(** * The release gate *)

(** The two day counts agree on the dates of December. *)
Lemma december_ordinal year day :
  days_from_civil year 12 day = Datetime.ymd2ord year 12 day - 719163.
Proof.
  unfold days_from_civil, Datetime.ymd2ord, Datetime.days_before_year,
    Datetime.days_before_month, Datetime.is_leap.
  change (12 <=? 2) with false. change (2 <? 12) with true.
  change ((12 + 9) mod 12) with 9. change ((153 * 9 + 2) / 5) with 275.
  change (nth (Z.to_nat 12) _ 0) with 334. cbv zeta. cbn [andb].
  destruct (Z.eqb_spec (year mod 4) 0), (Z.eqb_spec (year mod 100) 0),
    (Z.eqb_spec (year mod 400) 0); cbn [negb orb andb];
    Z.div_mod_to_equations; lia.
Qed.

Lemma problem_released_spec day st :
  1 <= year (self st) <= 9999 -> 1 <= day <= 31 ->
  problem_released day st
  = (Return (release_instant (year (self st)) day <? clock (world st)), st).
Proof.
  intros Hy Hd. unfold problem_released, bind, get, Datetime.make.
  replace (negb (Datetime.fits_int (year (self st)) && Datetime.fits_int 12
                 && Datetime.fits_int day))
    with false
    by (symmetry; apply negb_false_iff; unfold Datetime.fits_int;
        repeat (apply andb_true_iff; split); lia).
  change (Datetime.days_in_month (year (self st)) 12) with 31.
  replace ((1 <=? year (self st)) && (year (self st) <=? 9999)
           && (1 <=? 12) && (12 <=? 12) && (1 <=? day) && (day <=? 31))
    with true
    by (symmetry; repeat (apply andb_true_iff; split); lia).
  unfold ret, Datetime.gt, Datetime.now_tz.
  cbn [Datetime.utcoffset Datetime.wall].
  rewrite Z.eqb_refl. f_equal. f_equal.
  unfold release_instant. rewrite december_ordinal.
  unfold Datetime.epoch_wall, Datetime.timedelta_hours, Datetime.us_per_day,
    Datetime.us_per_hour, Datetime.us_per_second.
  apply eq_true_iff_eq. rewrite !Z.ltb_lt. lia.
Qed.

(** The first puzzle of 2020 came out at 05:00:00 UTC on December 1st, that
    is 1606798800 seconds after the Unix epoch. *)
Example release_instant_2020_1 : release_instant 2020 1 = 1606798800 * 1000000.
Proof. reflexivity. Qed.

(** The release instants of a year are one day apart. *)
Lemma release_instant_next year day :
  release_instant year (day + 1) = release_instant year day + Datetime.us_per_day.
Proof.
  unfold release_instant. rewrite !december_ordinal.
  unfold Datetime.ymd2ord. lia.
Qed.

(** C4.  For a day of December and a year [datetime] accepts,
    [problem_released] returns, changes nothing, and answers true exactly
    when the clock is strictly after December [day], 00:00 at UTC-5, of the
    year of the downloader: false strictly before that instant (and at it),
    true strictly after. *)
Theorem release_gate day st :
  1 <= year (self st) <= 9999 -> 1 <= day <= 31 ->
  exists released,
    problem_released day st = (Return released, st)
    /\ (released = true <-> release_instant (year (self st)) day < clock (world st))
    /\ (clock (world st) < release_instant (year (self st)) day -> released = false)
    /\ (release_instant (year (self st)) day < clock (world st) -> released = true).
Proof.
  intros Hy Hd. eexists. split; [apply problem_released_spec; assumption|].
  rewrite Z.ltb_lt. repeat split; try tauto.
  intros H. apply Z.ltb_ge. lia.
Qed.

Lemma release_gate_witness :
  exists released,
    problem_released 25 (a_state ∅ (answers 200 "ok")) =
      (Return released, a_state ∅ (answers 200 "ok"))
    /\ (released = true <-> release_instant 2020 25 < mid_december)
    /\ (mid_december < release_instant 2020 25 -> released = false)
    /\ (release_instant 2020 25 < mid_december -> released = true).
Proof.
  apply (release_gate 25 (a_state ∅ (answers 200 "ok"))); simpl; lia.
Defined.

(** * Captions and examples *)

Lemma has_text_lstrip s : has_text (Text.lstrip s) = has_text s.
Proof.
  induction s as [|c s IH]; [reflexivity|]. simpl.
  destruct (Text.isspace c) eqn:E; simpl; [assumption|]. rewrite E. reflexivity.
Qed.

Lemma truthy_rstrip s : Text.truthy (Text.rstrip s) = has_text s.
Proof.
  induction s as [|c s IH]; [reflexivity|]. simpl.
  destruct (Text.rstrip s) eqn:E; simpl in *; rewrite <- IH.
  - destruct (Text.isspace c); reflexivity.
  - apply eq_sym, orb_true_r.
Qed.

Lemma truthy_strip s : Text.truthy (Text.strip s) = has_text s.
Proof. unfold Text.strip. rewrite truthy_rstrip. apply has_text_lstrip. Qed.

Lemma previous_paragraph_find bs4 chain :
  previous_paragraph bs4 chain
  = match List.find (renders_text bs4) chain with
    | Some n => Return n
    | None => Raise AttributeError
    end.
Proof.
  induction chain as [|n chain IH]; [reflexivity|]. simpl.
  rewrite truthy_strip. fold (renders_text bs4 n).
  destruct (renders_text bs4 n); [reflexivity|assumption].
Qed.

Lemma caption_is_caption bs4 e c : caption bs4 e = Some c <-> is_caption bs4 e c.
Proof.
  unfold caption, is_caption. generalize (Soup.before e) as l. intros l. split.
  - induction l as [|n l IH]; simpl; [discriminate|].
    destruct (renders_text bs4 n) eqn:E.
    + intros [= ->]. exists [], l. repeat split; auto.
    + intros H. destruct (IH H) as (sk & rest & -> & Hsk & Hc).
      exists (n :: sk), rest. repeat split; auto.
  - intros (sk & rest & -> & Hsk & Hc). induction Hsk as [|n sk Hn _ IH]; simpl.
    + rewrite Hc. reflexivity.
    + rewrite Hn. assumption.
Qed.

Lemma caption_none bs4 e :
  caption bs4 e = None <-> Forall (fun n => renders_text bs4 n = false) (Soup.before e).
Proof.
  unfold caption. generalize (Soup.before e) as l. intros l.
  induction l as [|n l IH]; simpl.
  - split; auto.
  - destruct (renders_text bs4 n) eqn:E.
    + split; [discriminate|]. intros H. inversion H; congruence.
    + rewrite IH. split; [auto|]. intros H. inversion H; assumption.
Qed.


Lemma lower_char_fold_char x c :
  (nat_of_ascii x < 128)%nat ->
  Ascii.eqb x (Text.lower_char c) = Ascii.eqb x (fold_char c).
Proof.
  intros Hx.
  destruct (Ascii.eqb_spec x (Text.lower_char c)) as [E|E];
    destruct (Ascii.eqb_spec x (fold_char c)) as [F|F]; try reflexivity; exfalso;
    subst x; revert Hx F || revert Hx E;
    destruct c as [[] [] [] [] [] [] [] []]; vm_compute; intros; (lia || congruence).
Qed.

Lemma startswith_lower_fold p s :
  is_ascii p = true ->
  Text.startswith (Text.lower s) p = Text.startswith (fold_case s) p.
Proof.
  revert s. induction p as [|a p IH]; intros s Hp; [reflexivity|].
  simpl in Hp. apply andb_true_iff in Hp as [Ha Hp]. apply Nat.ltb_lt in Ha.
  destruct s as [|b s]; [reflexivity|]. simpl.
  rewrite lower_char_fold_char, IH by assumption. reflexivity.
Qed.

Lemma contains_lower_fold p s :
  is_ascii p = true ->
  Text.contains p (Text.lower s) = Text.contains p (fold_case s).
Proof.
  intros Hp. induction s as [|b s IH].
  - simpl. destruct p; reflexivity.
  - change (Text.contains p (Text.lower (String b s)))
      with (Text.startswith (Text.lower (String b s)) p || Text.contains p (Text.lower s)).
    change (Text.contains p (fold_case (String b s)))
      with (Text.startswith (fold_case (String b s)) p || Text.contains p (fold_case s)).
    rewrite startswith_lower_fold, IH by assumption. reflexivity.
Qed.

Lemma startswith_app s p : Text.startswith s p = true <-> exists post, s = p +:+ post.
Proof.
  revert s. induction p as [|a p IH]; intros s; simpl.
  - split; eauto.
  - destruct s as [|b s]; [split; [discriminate|intros [? ?]; discriminate]|].
    rewrite andb_true_iff, IH. split.
    + intros [E [post ->]]. apply Ascii.eqb_eq in E as ->. exists post. reflexivity.
    + intros [post H]. rewrite app_cons in H. injection H as -> ->.
      split; [apply Ascii.eqb_refl|eauto].
Qed.

Lemma contains_app sub s :
  Text.contains sub s = true <-> exists pre post, s = pre +:+ sub +:+ post.
Proof.
  induction s as [|b s IH].
  - simpl. rewrite orb_false_r, startswith_app. split.
    + intros [post H]. exists EmptyString, post. assumption.
    + intros (pre & post & H). destruct pre; [eauto|discriminate].
  - change (Text.contains sub (String b s))
      with (Text.startswith (String b s) sub || Text.contains sub s).
    rewrite orb_true_iff, startswith_app, IH. split.
    + intros [[post H]|(pre & post & H)].
      * exists EmptyString, post. assumption.
      * exists (String b pre), post. rewrite app_cons. congruence.
    + intros (pre & post & H). destruct pre as [|c pre].
      * left. eauto.
      * right. rewrite app_cons in H. injection H as -> ->. eauto.
Qed.

Lemma fold_case_app s t : fold_case (s +:+ t) = fold_case s +:+ fold_case t.
Proof. induction s as [|c s IH]; [reflexivity|]. rewrite app_cons. simpl. rewrite IH. reflexivity. Qed.

Lemma fold_case_app_inv s a b :
  fold_case s = a +:+ b -> exists s1 s2, s = s1 +:+ s2 /\ fold_case s1 = a /\ fold_case s2 = b.
Proof.
  revert s. induction a as [|c a IH]; intros s H.
  - exists EmptyString, s. auto.
  - destruct s as [|d s]; [discriminate|]. rewrite app_cons in H. simpl in H.
    injection H as Hc H. destruct (IH _ H) as (s1 & s2 & -> & <- & <-).
    exists (String d s1), s2. simpl. rewrite Hc. auto.
Qed.

Lemma contains_fold_mentions word s :
  Text.contains word (fold_case s) = true <-> mentions word s.
Proof.
  rewrite contains_app. unfold mentions. split.
  - intros (pre & post & H).
    destruct (fold_case_app_inv _ _ _ H) as (s1 & s23 & -> & _ & H23).
    destruct (fold_case_app_inv _ _ _ H23) as (s2 & s3 & -> & H2 & _).
    eauto.
  - intros (pre & w & post & -> & <-). rewrite !fold_case_app. eauto.
Qed.

Lemma is_example_spec bs4 e :
  is_example bs4 e = true
  <-> exists c, is_caption bs4 e c /\ mentions "example" (Soup.get_text c).
Proof.
  unfold is_example. split.
  - destruct (caption bs4 e) as [c|] eqn:E; [|discriminate].
    intros H. exists c. split; [apply caption_is_caption, E|].
    apply contains_fold_mentions, H.
  - intros (c & Hc & Hm). apply caption_is_caption in Hc. rewrite Hc.
    apply contains_fold_mentions, Hm.
Qed.

(** The loop over the blocks, in one equation: it raises as soon as a block
    has no caption, and otherwise appends the kept blocks in order. *)
Lemma collect_examples_spec bs4 code_blocks examples :
  collect_examples bs4 code_blocks examples
  = if forallb (captioned bs4) code_blocks
    then Return (examples ++ map rendered (List.filter (is_example bs4) code_blocks))%list
    else Raise AttributeError.
Proof.
  revert examples. induction code_blocks as [|e l IH]; intros examples; simpl.
  - rewrite app_nil_r. reflexivity.
  - rewrite previous_paragraph_find. unfold captioned at 1, is_example at 1, caption.
    destruct (List.find _ (Soup.before e)) as [c|]; [|reflexivity].
    rewrite contains_lower_fold by reflexivity. simpl.
    destruct (Text.contains "example" (fold_case (Soup.get_text c))); rewrite IH;
      destruct (forallb (captioned bs4) l); try reflexivity.
    simpl. rewrite <- app_assoc. reflexivity.
Qed.

Lemma download_examples_released bs4 day st html st1 :
  problem_released day st = (Return true, st) ->
  download_file (puzzle_url (year (self st)) day) st = (Return html, st1) ->
  download_examples bs4 day st
  = (match collect_examples bs4 (Soup.find_all "pre" (Soup.BeautifulSoup bs4 html)) [] with
     | Return examples => Return (Some examples)
     | Raise e => Raise e
     end, st1).
Proof.
  intros Hrel Hdl. unfold download_examples, bind, get. rewrite Hrel. simpl.
  rewrite Hdl. unfold of_result, ret.
  destruct (collect_examples _ _); reflexivity.
Qed.

(** With a [bs4] whose strings have [get_text], every node passes the first
    half of the test of the loop, and the loop stops at the caption of the
    specification. *)
Lemma renders_text_current bs4 n :
  Soup.navigable_get_text bs4 = true -> renders_text bs4 n = has_renderable_text n.
Proof.
  intros H. unfold renders_text, has_renderable_text, Soup.has_get_text.
  destruct n; rewrite ?H; reflexivity.
Qed.

Lemma find_ext {A} (f g : A -> bool) l :
  (forall x, f x = g x) -> List.find f l = List.find g l.
Proof.
  intros H. induction l as [|x l IH]; [reflexivity|]. cbn [List.find].
  rewrite H, IH. reflexivity.
Qed.

Lemma caption_current bs4 e :
  Soup.navigable_get_text bs4 = true -> caption bs4 e = worded_caption e.
Proof. intros H. apply find_ext. intros n. apply renders_text_current, H. Qed.

Lemma is_caption_current bs4 e c :
  Soup.navigable_get_text bs4 = true -> is_caption bs4 e c <-> is_worded_caption e c.
Proof.
  intros H. unfold is_caption, is_worded_caption.
  split; intros (skipped & rest & E & Hsk & Hc); exists skipped, rest;
    (split; [exact E|]); split.
  - eapply Forall_impl; [exact Hsk|]. intros n Hn.
    rewrite <- (renders_text_current bs4 n H). exact Hn.
  - rewrite <- (renders_text_current bs4 c H). exact Hc.
  - eapply Forall_impl; [exact Hsk|]. intros n Hn.
    rewrite (renders_text_current bs4 n H). exact Hn.
  - rewrite (renders_text_current bs4 c H). exact Hc.
Qed.

Lemma is_example_current bs4 e :
  Soup.navigable_get_text bs4 = true -> is_example bs4 e = is_worded_example e.
Proof.
  intros H. unfold is_example, is_worded_example.
  rewrite (caption_current bs4 e H). reflexivity.
Qed.

(** C6 (amended).  Once the page of a released day is fetched and every
    preformatted block of it has a caption, [download_examples] returns the
    rendered text of the blocks it keeps, in document order, and it keeps a
    block exactly when the caption of the block contains the word example
    in whatever case.  The caption is the nearest previous sibling that has
    a [get_text] method and renders a text that is not blank.  With a [bs4]
    whose strings have [get_text], every node has the method: the caption is
    the nearest previous sibling with a renderable text that is not blank,
    and the list is the one the specification describes. *)
Theorem examples_are_the_captioned_blocks bs4 day st html st1 :
  problem_released day st = (Return true, st) ->
  download_file (puzzle_url (year (self st)) day) st = (Return html, st1) ->
  Forall (fun e => exists c, is_caption bs4 e c)
    (Soup.find_all "pre" (Soup.BeautifulSoup bs4 html)) ->
  download_examples bs4 day st
  = (Return (Some (map rendered
                     (List.filter (is_example bs4)
                        (Soup.find_all "pre" (Soup.BeautifulSoup bs4 html))))), st1)
  /\ (forall e,
         is_example bs4 e = true
         <-> exists c, is_caption bs4 e c /\ mentions "example" (Soup.get_text c))
  /\ (Soup.navigable_get_text bs4 = true ->
      download_examples bs4 day st
      = (Return (Some (worded_examples (Soup.BeautifulSoup bs4 html))), st1)
      /\ (forall e c, is_caption bs4 e c <-> is_worded_caption e c)
      /\ (forall e,
             is_worded_example e = true
             <-> exists c, is_worded_caption e c
                           /\ mentions "example" (Soup.get_text c))).
Proof.
  intros Hrel Hdl Hcap.
  assert (E : download_examples bs4 day st
              = (Return (Some (map rendered
                                 (List.filter (is_example bs4)
                                    (Soup.find_all "pre"
                                       (Soup.BeautifulSoup bs4 html))))), st1)).
  { rewrite (download_examples_released _ _ _ _ _ Hrel Hdl), collect_examples_spec.
    replace (forallb (captioned bs4) _) with true; [reflexivity|].
    symmetry. apply forallb_forall. intros e He.
    rewrite Forall_forall in Hcap. destruct (Hcap e) as [c Hc].
    - apply list_elem_of_In, He.
    - apply caption_is_caption in Hc. unfold captioned. rewrite Hc. reflexivity. }
  split; [exact E|]. split; [apply is_example_spec|].
  intros Hflag. split; [|split].
  - rewrite E. unfold worded_examples.
    rewrite (List.filter_ext _ _ (fun e => is_example_current bs4 e Hflag)).
    reflexivity.
  - intros e c. apply is_caption_current, Hflag.
  - intros e. rewrite <- (is_example_current bs4 e Hflag), is_example_spec.
    split; intros (c & Hc & Hm); exists c; (split; [|exact Hm]);
      apply (is_caption_current bs4 e c Hflag); exact Hc.
Qed.

Lemma examples_are_the_captioned_blocks_witness :
  download_examples (parse_as article) 1 st_page_cached
  = (Return (Some ["1721"]), st_page_cached)
  /\ download_examples (parse_as article) 1 st_page_cached
     = (Return (Some (worded_examples article)), st_page_cached).
Proof.
  assert (H : Forall (fun e => exists c, is_caption (parse_as article) e c)
                (Soup.find_all "pre" (Soup.BeautifulSoup (parse_as article) "<article>"))).
  { repeat constructor.
    - exists (Soup.Tag "p" [Soup.NavigableString "For Example:"]).
      exists [Soup.Comment "sample"; Soup.NavigableString (String "010" EmptyString)], [].
      repeat split; repeat constructor.
    - exists (Soup.Tag "p" [Soup.NavigableString "Your puzzle answer was"]).
      exists [], [Soup.Tag "pre" [Soup.Tag "code" [Soup.NavigableString "1721"]];
                  Soup.Comment "sample";
                  Soup.NavigableString (String "010" EmptyString);
                  Soup.Tag "p" [Soup.NavigableString "For Example:"]].
      repeat split; repeat constructor. }
  destruct (examples_are_the_captioned_blocks (parse_as article) 1
              st_page_cached "<article>" st_page_cached
              ltac:(vm_compute; reflexivity) ltac:(vm_compute; reflexivity) H)
    as (H1 & _ & H3).
  split; [exact H1|]. exact (proj1 (H3 eq_refl)).
Defined.

(** A bare text node between the caption and the block: a [bs4] whose
    strings have [get_text] takes the text node for the caption, an older
    one skips it. *)
Example caption_is_a_text_node :
  collect_examples (parse_as aside) (Soup.find_all "pre" aside) [] = Return []
  /\ collect_examples (parse_as_in_2020 aside) (Soup.find_all "pre" aside) []
     = Return ["1721"].
Proof. split; vm_compute; reflexivity. Qed.

(** C6, as it is worded, fails with a [bs4] whose strings have no
    [get_text]: on a page whose block follows a bare text node, itself after
    a paragraph that mentions the word, the loop skips the text node, stops
    at the paragraph and keeps the block, while the nearest previous sibling
    with a text that is not blank is the text node, which does not mention
    the word, so that the list of the specification is empty. *)
Lemma text_node_caption_is_skipped :
  download_examples (parse_as_in_2020 aside) 1 st_page_cached
  = (Return (Some ["1721"]), st_page_cached)
  /\ worded_caption {| Soup.here := Soup.Tag "pre" [Soup.NavigableString "1721"];
                       Soup.before := [Soup.NavigableString "see the list";
                                       Soup.Tag "p" [Soup.NavigableString "For example:"]] |}
     = Some (Soup.NavigableString "see the list")
  /\ worded_examples aside = []
  /\ ~ returns_worded_examples (parse_as_in_2020 aside) 1 st_page_cached.
Proof.
  assert (E : download_examples (parse_as_in_2020 aside) 1 st_page_cached
              = (Return (Some ["1721"]), st_page_cached))
    by (vm_compute; reflexivity).
  repeat split; try (vm_compute; reflexivity).
  intros H.
  specialize (H "<article>" st_page_cached ["1721"]
                ltac:(vm_compute; reflexivity) E).
  vm_compute in H. discriminate.
Qed.

(** C8.  When some preformatted block of the fetched page has no previous
    sibling that renders a text that is not blank, the walk runs off the
    start of the sibling chain and [download_examples] ends by raising
    [AttributeError]: the call comes to an end, and it returns no list. *)
Theorem block_without_caption_raises bs4 day st html st1 :
  problem_released day st = (Return true, st) ->
  download_file (puzzle_url (year (self st)) day) st = (Return html, st1) ->
  Exists (fun e => Forall (fun n => renders_text bs4 n = false) (Soup.before e))
    (Soup.find_all "pre" (Soup.BeautifulSoup bs4 html)) ->
  download_examples bs4 day st = (Raise AttributeError, st1).
Proof.
  intros Hrel Hdl Hbad.
  rewrite (download_examples_released _ _ _ _ _ Hrel Hdl), collect_examples_spec.
  replace (forallb (captioned bs4) _) with false; [reflexivity|].
  symmetry. apply not_true_is_false. intros H.
  rewrite forallb_forall in H. apply Exists_exists in Hbad as (e & He & Hblank).
  specialize (H e (proj1 (list_elem_of_In _ _) He)).
  apply caption_none in Hblank. unfold captioned in H. rewrite Hblank in H.
  discriminate.
Qed.

Lemma block_without_caption_raises_witness :
  download_examples (parse_as headless) 1 st_page_cached
  = (Raise AttributeError, st_page_cached).
Proof.
  apply (block_without_caption_raises (parse_as headless) 1 st_page_cached
           "<article>" st_page_cached).
  - vm_compute. reflexivity.
  - vm_compute. reflexivity.
  - repeat constructor.
Defined.

(** * The driver of [download_inputs.py] *)

Lemma evolves_refl target st : evolves target st st.
Proof. split; auto. exists []. split; [reflexivity|constructor]. Qed.

Lemma evolves_trans target st1 st2 st3 :
  evolves target st1 st2 -> evolves target st2 st3 -> evolves target st1 st3.
Proof.
  intros [Hy1 Hs1 Hf1 (n1 & E1 & F1)] [Hy2 Hs2 Hf2 (n2 & E2 & F2)]. split.
  - congruence.
  - congruence.
  - auto.
  - exists (n2 ++ n1)%list. split.
    + rewrite E2, E1, app_assoc. reflexivity.
    + apply Forall_app. auto.
Qed.

Lemma evolves_bind {A B} target (m : M State A) (k : A -> M State B) st :
  evolves target st (snd (m st)) ->
  (forall a st', evolves target st st' -> evolves target st' (snd (k a st'))) ->
  evolves target st (snd (bind m k st)).
Proof.
  intros Hm Hk. unfold bind. destruct (m st) as [[a|e] st']; simpl in *.
  - eapply evolves_trans; [exact Hm|]. apply Hk, Hm.
  - exact Hm.
Qed.

Lemma evolves_for_each {A} target (l : list A) (body : A -> M State unit) st0 :
  (forall a st, In a l -> evolves target st0 st -> evolves target st (snd (body a st))) ->
  forall st, evolves target st0 st -> evolves target st (snd (for_each l body st)).
Proof.
  induction l as [|a l IH]; intros Hbody st Hst; simpl.
  - apply evolves_refl.
  - unfold bind. specialize (Hbody a st (or_introl eq_refl) Hst) as Ha.
    destruct (body a st) as [[[]|e] st']; simpl in *; [|exact Ha].
    eapply evolves_trans; [exact Ha|]. apply IH.
    + intros b s Hb. apply Hbody. right. exact Hb.
    + eapply evolves_trans; eassumption.
Qed.

Lemma evolves_insert target p text st :
  evolves target st
    {| self := self st; world := set_files (insert p text) (world st) |}.
Proof.
  split; simpl; auto.
  - intros q Hq. destruct (decide (p = q)) as [->|Hne].
    + rewrite lookup_insert_eq. eauto.
    + rewrite lookup_insert_ne by assumption. assumption.
  - exists []. split; [reflexivity|constructor].
Qed.

Lemma evolves_write target p text st :
  evolves target st (snd (in_world (file_write p text) st)).
Proof. apply evolves_insert. Qed.

Lemma evolves_print target line st :
  evolves target st (snd (in_world (print line) st)).
Proof.
  destruct st as [d w]. split; simpl; auto.
  exists []. split; [reflexivity|constructor].
Qed.

Lemma problem_released_state day st : snd (problem_released day st) = st.
Proof.
  unfold problem_released, bind, get. simpl.
  destruct (Datetime.make _ _ _ _); reflexivity.
Qed.

Lemma evolves_download_file target url st :
  url <> target -> evolves target st (snd (download_file url st)).
Proof.
  intros Hne.
  destruct (files (world st) !! cache_file (session_id (self st)) url) as [data|] eqn:E.
  - rewrite (download_file_hit _ _ _ E). apply evolves_refl.
  - rewrite (download_file_miss _ _ E).
    assert (Hreq : evolves target st (requested url st)).
    { split.
      - unfold requested. simpl. destruct (outcome _); reflexivity.
      - apply requested_session.
      - intros p Hp. rewrite requested_files. exact Hp.
      - exists [(url, session_id (self st))]. split; [reflexivity|].
        repeat constructor. exact Hne. }
    destruct (outcome _) as [sc text|]; [destruct (status_fails sc)|];
      cbn [fst snd]; try exact Hreq.
    eapply evolves_trans; [exact Hreq|]. apply evolves_insert.
Qed.

Lemma evolves_problem_released target day st :
  evolves target st (snd (problem_released day st)).
Proof. rewrite problem_released_state. apply evolves_refl. Qed.

Lemma evolves_download_input target day st :
  input_url (year (self st)) day <> target ->
  evolves target st (snd (download_input day st)).
Proof.
  intros Hne. unfold download_input. apply evolves_bind.
  - apply evolves_problem_released.
  - intros released st' Hst'. destruct released; simpl; [|apply evolves_refl].
    unfold bind at 1, get. cbn [fst snd]. apply evolves_bind.
    + apply evolves_download_file. rewrite (evolves_year _ _ _ Hst'). exact Hne.
    + intros. apply evolves_refl.
Qed.

Lemma evolves_download_examples bs4 target day st :
  puzzle_url (year (self st)) day <> target ->
  evolves target st (snd (download_examples bs4 day st)).
Proof.
  intros Hne. unfold download_examples. apply evolves_bind.
  - apply evolves_problem_released.
  - intros released st' Hst'. destruct released; simpl; [|apply evolves_refl].
    unfold bind at 1, get. cbn [fst snd]. apply evolves_bind.
    + apply evolves_download_file. rewrite (evolves_year _ _ _ Hst'). exact Hne.
    + intros html st'' _. apply evolves_bind.
      * unfold of_result. apply evolves_refl.
      * intros. apply evolves_refl.
Qed.

(** Globbing *)
Lemma glob_examples_found day w :
  glob_examples day w <> []
  <-> exists name, is_Some (files w !! ["inputs"; name])
                   /\ example_pattern_matches day name = true.
Proof.
  unfold glob_examples. split.
  - intros H. destruct (List.filter _ _) as [|p l] eqn:E; [exfalso; apply H; reflexivity|].
    assert (Hp : In p (p :: l)) by (left; reflexivity).
    rewrite <- E in Hp. apply filter_In in Hp as [Hin Hm].
    apply in_map_iff in Hin as ([q data] & <- & Hq). simpl in Hm.
    apply list_elem_of_In, elem_of_map_to_list in Hq.
    destruct q as [|dir [|name [|]]]; try discriminate.
    apply andb_true_iff in Hm as [Hd Hm]. apply String.eqb_eq in Hd as ->.
    exists name. split; eauto.
  - intros (name & [data Hd] & Hm) E.
    assert (Hin : In ["inputs"; name] (List.filter
              (fun p => match p with
                        | [dir; name] => String.eqb dir "inputs" && example_pattern_matches day name
                        | _ => false
                        end) (map fst (map_to_list (files w))))).
    { apply filter_In. split.
      - apply in_map_iff. exists (["inputs"; name], data). split; [reflexivity|].
        apply list_elem_of_In, elem_of_map_to_list. exact Hd.
      - rewrite Hm. reflexivity. }
    rewrite E in Hin. destruct Hin.
Qed.

Lemma glob_examples_kept day w w' :
  (forall p, is_Some (files w !! p) -> is_Some (files w' !! p)) ->
  glob_examples day w <> [] -> glob_examples day w' <> [].
Proof.
  intros Hkeep. rewrite !glob_examples_found.
  intros (name & Hf & Hm). exists name. auto.
Qed.

Lemma file_exists_kept p w w' :
  (forall p, is_Some (files w !! p) -> is_Some (files w' !! p)) ->
  file_exists p w = true -> file_exists p w' = true.
Proof. rewrite !file_exists_true. auto. Qed.

Lemma sync_examples_skip bs4 day st :
  glob_examples day (world st) <> [] ->
  sync_examples bs4 day st = (Return tt, st).
Proof.
  intros H. unfold sync_examples, bind, get. cbn [fst snd].
  destruct (glob_examples day (world st)); [contradiction|reflexivity].
Qed.

Lemma sync_input_skip day st :
  file_exists (input_file day) (world st) = true ->
  sync_input day st = (Return tt, st).
Proof.
  intros H. unfold sync_input, bind, get. cbn [fst snd]. rewrite H. reflexivity.
Qed.

Lemma evolves_sync_examples bs4 target day st :
  puzzle_url (year (self st)) day <> target ->
  evolves target st (snd (sync_examples bs4 day st)).
Proof.
  intros Hne. unfold sync_examples. unfold bind at 1, get. cbn [fst snd].
  destruct (glob_examples day (world st)); [|apply evolves_refl].
  apply evolves_bind.
  - apply evolves_download_examples, Hne.
  - intros [examples|] st' _; [|apply evolves_refl].
    apply evolves_for_each with (st0 := st'); [|apply evolves_refl].
    intros [i example] st'' _ _. apply evolves_bind.
    + apply evolves_write.
    + intros. apply evolves_print.
Qed.

Lemma evolves_sync_input target day st :
  input_url (year (self st)) day <> target ->
  evolves target st (snd (sync_input day st)).
Proof.
  intros Hne. unfold sync_input. unfold bind at 1, get. cbn [fst snd].
  destruct (file_exists (input_file day) (world st)); [apply evolves_refl|].
  apply evolves_bind.
  - apply evolves_download_input, Hne.
  - intros [text|] st' _; [|apply evolves_refl].
    destruct (Text.truthy text); [|apply evolves_refl].
    apply evolves_bind.
    + apply evolves_write.
    + intros. apply evolves_print.
Qed.

Lemma in_range a b x : In x (range a b) <-> a <= x < b.
Proof. unfold range. rewrite <- list_elem_of_In, elem_of_seqZ. lia. Qed.

Lemma urls_of_2020_differ d d' :
  1 <= d <= 25 -> 1 <= d' <= 25 ->
  (puzzle_url 2020 d' = puzzle_url 2020 d -> d' = d)
  /\ (input_url 2020 d' = input_url 2020 d -> d' = d)
  /\ input_url 2020 d' <> puzzle_url 2020 d.
Proof.
  intros Hd Hd'.
  assert (H : forallb (fun d => forallb (fun d' =>
              implb (String.eqb (puzzle_url 2020 d') (puzzle_url 2020 d)) (d' =? d)
              && implb (String.eqb (input_url 2020 d') (input_url 2020 d)) (d' =? d)
              && negb (String.eqb (input_url 2020 d') (puzzle_url 2020 d)))
            (range 1 26)) (range 1 26) = true) by (vm_compute; reflexivity).
  rewrite forallb_forall in H. specialize (H d (proj2 (in_range 1 26 d) ltac:(lia))).
  rewrite forallb_forall in H. specialize (H d' (proj2 (in_range 1 26 d') ltac:(lia))).
  apply andb_true_iff in H as [H H3]. apply andb_true_iff in H as [H1 H2].
  repeat split.
  - intros E. apply String.eqb_eq in E. rewrite E in H1. apply Z.eqb_eq, H1.
  - intros E. apply String.eqb_eq in E. rewrite E in H2. apply Z.eqb_eq, H2.
  - intros E. apply String.eqb_eq in E. rewrite E in H3. discriminate.
Qed.

(** The two passes of the driver, run on the downloader of [main]. *)
Lemma evolves_passes bs4 target st0 :
  year (self st0) = 2020 ->
  (forall day st, 1 <= day <= 25 -> evolves target st0 st ->
                  puzzle_url 2020 day = target ->
                  glob_examples day (world st) <> []) ->
  (forall day st, 1 <= day <= 25 -> evolves target st0 st ->
                  input_url 2020 day = target ->
                  file_exists (input_file day) (world st) = true) ->
  evolves target st0
    (snd ((for_each (range 1 26) (sync_examples bs4) ;;
           for_each (range 1 26) sync_input) st0)).
Proof.
  intros Hy Hex Hin. apply evolves_bind.
  - apply evolves_for_each with (st0 := st0); [|apply evolves_refl].
    intros day st Hday Hst. apply in_range in Hday.
    destruct (String.eqb_spec (puzzle_url 2020 day) target) as [E|E].
    + rewrite sync_examples_skip; [apply evolves_refl|]. apply Hex; [lia|assumption..].
    + apply evolves_sync_examples. rewrite (evolves_year _ _ _ Hst), Hy. exact E.
  - intros _ st1 Hst1. apply evolves_for_each with (st0 := st0); [|exact Hst1].
    intros day st Hday Hst. apply in_range in Hday.
    destruct (String.eqb_spec (input_url 2020 day) target) as [E|E].
    + rewrite sync_input_skip; [apply evolves_refl|]. apply Hin; [lia|assumption..].
    + apply evolves_sync_input. rewrite (evolves_year _ _ _ Hst), Hy. exact E.
Qed.

Lemma main_unfold bs4 w :
  main bs4 w
  = match environ w !! "AOC_SESSION_ID" with
    | None => (Raise KeyError, w)
    | Some sid =>
        let d := {| year := 2020; session_id := sid;
                    throttle_period := default_throttle_period;
                    wait_until := clock w |} in
        let m := (for_each (range 1 26) (sync_examples bs4) ;;
                  for_each (range 1 26) sync_input) in
        (fst (m {| self := d; world := w |}), world (snd (m {| self := d; world := w |})))
    end.
Proof.
  unfold main. unfold bind at 1. unfold init, with_object.
  destruct (environ w !! "AOC_SESSION_ID"); [|reflexivity].
  cbv zeta.
  match goal with |- context [bind ?a ?b ?c] => destruct (bind a b c) as [r st] end.
  reflexivity.
Qed.

Lemma main_evolves bs4 target w :
  (forall day w', 1 <= day <= 25 ->
                  (forall p, is_Some (files w !! p) -> is_Some (files w' !! p)) ->
                  puzzle_url 2020 day = target -> glob_examples day w' <> []) ->
  (forall day w', 1 <= day <= 25 ->
                  (forall p, is_Some (files w !! p) -> is_Some (files w' !! p)) ->
                  input_url 2020 day = target ->
                  file_exists (input_file day) w' = true) ->
  new_requests_avoid target w (snd (main bs4 w))
  /\ (forall p, is_Some (files w !! p) ->
                is_Some (files (snd (main bs4 w)) !! p)).
Proof.
  intros Hex Hin. rewrite main_unfold.
  destruct (environ w !! "AOC_SESSION_ID") as [sid|]; cbn [snd].
  - match goal with |- context [snd (?m ?st0)] =>
      assert (H : evolves target st0 (snd (m st0))) end.
    { apply evolves_passes; [reflexivity| |].
      - intros day st Hd Hst. apply Hex; [assumption|]. apply (evolves_files _ _ _ Hst).
      - intros day st Hd Hst. apply Hin; [assumption|]. apply (evolves_files _ _ _ Hst). }
    cbv zeta. split; [apply (evolves_sent _ _ _ H)|apply (evolves_files _ _ _ H)].
  - split; [|auto]. exists []. split; [reflexivity|constructor].
Qed.

(** One run, for a day whose example file, or whose input file, exists. *)
Lemma run_skips_day bs4 day w :
  1 <= day <= 25 ->
  (glob_examples day w <> [] ->
   new_requests_avoid (puzzle_url 2020 day) w (snd (main bs4 w))
   /\ glob_examples day (snd (main bs4 w)) <> [])
  /\ (file_exists (input_file day) w = true ->
      new_requests_avoid (input_url 2020 day) w (snd (main bs4 w))
      /\ file_exists (input_file day) (snd (main bs4 w)) = true).
Proof.
  intros Hday. split; intros Hw.
  - destruct (main_evolves bs4 (puzzle_url 2020 day) w) as [H1 H2].
    + intros d w' Hd Hkeep E.
      apply (urls_of_2020_differ day d Hday Hd) in E as ->.
      eapply glob_examples_kept; eassumption.
    + intros d w' Hd Hkeep E.
      destruct (urls_of_2020_differ day d Hday Hd) as (_ & _ & Hne). contradiction.
    + split; [exact H1|]. eapply glob_examples_kept; eassumption.
  - destruct (main_evolves bs4 (input_url 2020 day) w) as [H1 H2].
    + intros d w' Hd Hkeep E.
      destruct (urls_of_2020_differ d day Hd Hday) as (_ & _ & Hne).
      symmetry in E. contradiction.
    + intros d w' Hd Hkeep E.
      apply (urls_of_2020_differ day d Hday Hd) in E as ->.
      eapply file_exists_kept; eassumption.
    + split; [exact H1|]. eapply file_exists_kept; eassumption.
Qed.

(** C7 (amended).  A run of the driver, a second run in particular, does
    nothing for the days whose files exist.  For a day from 1 to 25: when a
    file matches the example pattern of the day, the step of the example
    pass for that day changes nothing, and the whole run sends no request
    for the puzzle page of the day and leaves a matching file behind, so
    that a second run, whenever it starts, sends none either; when the input
    file of the day exists, the step of the input pass changes nothing, and
    neither the run nor a second run sends a request for the input of the
    day. *)
Theorem driver_skips_days_with_files bs4 day :
  1 <= day <= 25 ->
  (forall st, glob_examples day (world st) <> [] ->
              sync_examples bs4 day st = (Return tt, st))
  /\ (forall st, file_exists (input_file day) (world st) = true ->
                 sync_input day st = (Return tt, st))
  /\ (forall w later,
         glob_examples day w <> [] ->
         new_requests_avoid (puzzle_url 2020 day) w (snd (main bs4 w))
         /\ new_requests_avoid (puzzle_url 2020 day)
              (set_clock later (snd (main bs4 w)))
              (snd (main bs4 (set_clock later (snd (main bs4 w))))))
  /\ (forall w later,
         file_exists (input_file day) w = true ->
         new_requests_avoid (input_url 2020 day) w (snd (main bs4 w))
         /\ new_requests_avoid (input_url 2020 day)
              (set_clock later (snd (main bs4 w)))
              (snd (main bs4 (set_clock later (snd (main bs4 w)))))).
Proof.
  intros Hday. split; [|split; [|split]].
  - intros st. apply sync_examples_skip.
  - intros st. apply sync_input_skip.
  - intros w later Hw.
    destruct (proj1 (run_skips_day bs4 day w Hday) Hw) as [H1 H2].
    split; [exact H1|].
    apply (proj1 (run_skips_day bs4 day _ Hday)). exact H2.
  - intros w later Hw.
    destruct (proj2 (run_skips_day bs4 day w Hday) Hw) as [H1 H2].
    split; [exact H1|].
    apply (proj2 (run_skips_day bs4 day _ Hday)). exact H2.
Qed.

Lemma driver_skips_days_with_files_witness :
  new_requests_avoid (puzzle_url 2020 1) w_november
    (snd (main (parse_as article) w_november)).
Proof.
  destruct (driver_skips_days_with_files (parse_as article) 1) as (_ & _ & H & _);
    [lia|].
  apply (H w_november 0). vm_compute. discriminate.
Defined.

(** C7, as it is worded, fails: with the example files of all the days at
    hand and no input file, a first run before the first release completes
    and writes nothing; a second run on the same files, two weeks later,
    fetches and writes the input of day 1. *)
Lemma second_run_may_write :
  fst (main (parse_as article) w_november) = Return tt
  /\ files (snd (main (parse_as article) w_november)) !! input_file 1 = None
  /\ sent (snd (main (parse_as article) w_november)) = []
  /\ files (snd (main (parse_as article)
                   (set_clock mid_december (snd (main (parse_as article) w_november)))))
     !! input_file 1 = Some "1721"
  /\ ~ second_run_writes_nothing (parse_as article) w_november mid_december.
Proof.
  split; [vm_compute; reflexivity|]. split; [vm_compute; reflexivity|].
  split; [vm_compute; reflexivity|]. split; [vm_compute; reflexivity|].
  unfold second_run_writes_nothing. intros H.
  apply (f_equal (fun m => m !! input_file 1)) in H.
  vm_compute in H. discriminate.
Qed.

(** * The template expander *)

(** Where nothing matches, the text is copied. *)
Lemma scan_no_match m s :
  (forall a b, s = a +:+ b -> m b = None) -> Text.scan m 0 s = s.
Proof.
  induction s as [|c s IH]; intros H; [reflexivity|]. simpl.
  rewrite (H EmptyString (String c s) eq_refl). f_equal. apply IH.
  intros a b ->. apply (H (String c a) b). reflexivity.
Qed.

Lemma sub_no_match head token new text :
  no_match head token text -> Re.sub head token new text = text.
Proof.
  intros H. apply scan_no_match. intros a b E.
  unfold Re.rewrite_token. rewrite (H a b E). reflexivity.
Qed.

Lemma for_each_write_other {A} (f : A -> path) (g : A -> string) l w p :
  ~ In p (map f l) ->
  files (snd (for_each l (fun a => file_write (f a) (g a)) w)) !! p = files w !! p.
Proof.
  revert w. induction l as [|a l IH]; intros w Hp; [reflexivity|].
  simpl in *. unfold bind, file_write at 1. cbn [fst snd].
  rewrite IH by tauto. simpl. apply lookup_insert_ne. tauto.
Qed.

Lemma for_each_write_lookup {A} (f : A -> path) (g : A -> string) l w a :
  NoDup (map f l) -> In a l ->
  files (snd (for_each l (fun a => file_write (f a) (g a)) w)) !! f a = Some (g a).
Proof.
  revert w. induction l as [|b l IH]; intros w Hnd Ha; [destruct Ha|].
  simpl in *. apply NoDup_cons in Hnd as [Hb Hnd].
  unfold bind, file_write at 1. cbn [fst snd]. destruct Ha as [->|Ha].
  - rewrite for_each_write_other by (rewrite <- list_elem_of_In; exact Hb).
    simpl. apply lookup_insert_eq.
  - apply IH; assumption.
Qed.

Lemma for_each_write_returns {A} (f : A -> path) (g : A -> string) l w :
  fst (for_each l (fun a => file_write (f a) (g a)) w) = Return tt.
Proof.
  revert w. induction l as [|b l IH]; intros w; [reflexivity|].
  simpl. unfold bind, file_write at 1. cbn [fst snd]. apply IH.
Qed.

Lemma solution_files_distinct : NoDup (map Template.solution_file (seqZ 2 24)).
Proof.
  apply (bool_decide_unpack (NoDup (map Template.solution_file (seqZ 2 24)))).
  vm_compute. exact I.
Qed.

Lemma template_main_writes w data day :
  files w !! Template.solution_file 1 = Some data ->
  2 <= day <= 25 ->
  fst (Template.main w) = Return tt
  /\ files (snd (Template.main w)) !! Template.solution_file day
     = Some (Template.expand day (Text.universal_newlines data)).
Proof.
  intros Hdata Hday. unfold Template.main, bind, file_read. rewrite Hdata.
  split; [apply for_each_write_returns|].
  apply (for_each_write_lookup Template.solution_file
           (fun day => Template.expand day (Text.universal_newlines data))).
  - apply solution_files_distinct.
  - apply list_elem_of_In, elem_of_seqZ. lia.
Qed.

(** C9.  When the pattern of the day-number function, or the one of the
    implemented function, matches nowhere in the text it is applied to, that
    substitution returns the text as it is; and whatever the template holds,
    [main] raises nothing and writes, for every day from 2 to 25, the file
    of the day with the outcome of the four substitutions. *)
Theorem template_mismatch_is_silent w data day :
  files w !! Template.solution_file 1 = Some data ->
  2 <= day <= 25 ->
  let text :=
    Text.replace "  1" ("  " +:+ Text.str day)
      (Text.replace "Day01" ("Day" +:+ Text.format_02d day)
         (Text.universal_newlines data)) in
  let text' := Re.sub Template.day_head "1" (Text.str day) text in
  (no_match Template.day_head "1" text -> text' = text)
  /\ (no_match Template.implemented_head "true" text' ->
      Re.sub Template.implemented_head "true" "false" text' = text')
  /\ fst (Template.main w) = Return tt
  /\ files (snd (Template.main w)) !! Template.solution_file day
     = Some (Re.sub Template.implemented_head "true" "false" text').
Proof.
  intros Hdata Hday text text'.
  split; [apply sub_no_match|]. split; [apply sub_no_match|].
  apply (template_main_writes w data day Hdata Hday).
Qed.

Lemma template_mismatch_is_silent_witness :
  fst (Template.main w_bare_template) = Return tt
  /\ files (snd (Template.main w_bare_template)) !! Template.solution_file 7
     = Some "pub struct Day07;".
Proof.
  destruct (template_mismatch_is_silent w_bare_template "pub struct Day01;" 7)
    as (_ & _ & H1 & H2); [vm_compute; reflexivity|lia|].
  split; [exact H1|]. rewrite H2. vm_compute. reflexivity.
Defined.


Lemma length_app' s t : String.length (s +:+ t) = (String.length s + String.length t)%nat.
Proof. induction s as [|c s IH]; [reflexivity|]. rewrite app_cons. simpl. rewrite IH. reflexivity. Qed.

(** ** Left-to-right rewriting *)

Section Scan.

Variable m : string -> option (string * nat).









End Scan.

(** ** Literals, runs of blanks and the two patterns *)










(** ** Where a piece of text starts with two known characters *)







(** ** The four passes on the items of a template *)












(** ** The numbers of the days 2 to 25 *)






(** ** The items, pass by pass *)












(** *** The label *)


(** *** The indented 1 *)




(** *** The two functions *)




(** *** Quiet stretches *)





(** *** A template cut into items *)







(** * Further properties of the fetcher *)

Lemma requested_self_fields url st :
  year (self (requested url st)) = year (self st)
  /\ throttle_period (self (requested url st)) = throttle_period (self st).
Proof. unfold requested. cbn [self]. destruct (outcome _); split; reflexivity. Qed.

Lemma completion_time_ge url st :
  clock (world st) <= completion_time url st
  /\ wait_until (self st) <= completion_time url st.
Proof. unfold completion_time. lia. Qed.

(** The state a fetch leaves behind is the one of before, on a hit, and on a
    miss the state after the request, with the cache file written when the
    answer passes the status check. *)
Lemma download_file_state url st :
  snd (download_file url st) = st
  \/ (files (world st) !! cache_file (session_id (self st)) url = None
      /\ (snd (download_file url st) = requested url st
          \/ exists text,
               snd (download_file url st)
               = {| self := self (requested url st);
                    world := set_files
                               (insert (cache_file (session_id (self st)) url) text)
                               (world (requested url st)) |})).
Proof.
  destruct (files (world st) !! cache_file (session_id (self st)) url) as [data|] eqn:E.
  - left. rewrite (download_file_hit _ _ _ E). reflexivity.
  - right. split; [reflexivity|]. rewrite (download_file_miss _ _ E).
    destruct (outcome _) as [sc text|]; [destruct (status_fails sc)|]; cbn [snd]; eauto.
Qed.

(** X1.  A downloader is made with its deadline at the current time, so
    that its first request is not delayed: on a cache miss right after
    [AOCDownloader(...)], the request completes one latency after the
    construction, whatever the throttle period. *)
Theorem first_request_is_not_delayed year session period w d w' url :
  init year session period w = (Return d, w') ->
  files w !! cache_file (session_id d) url = None ->
  w' = w
  /\ wait_until d = clock w
  /\ clock (world (snd (download_file url {| self := d; world := w |})))
     = clock w + Z.of_N (latency (server w (length (sent w)) url (session_id d))).
Proof.
  intros Hinit Hmiss.
  assert (H : w' = w /\ wait_until d = clock w).
  { unfold init in Hinit.
    destruct (match session with
              | Some s => if Text.truthy s then Some s else environ w !! "AOC_SESSION_ID"
              | None => environ w !! "AOC_SESSION_ID"
              end); [|discriminate].
    injection Hinit as <- <-. split; reflexivity. }
  destruct H as [-> Hw]. repeat split; [exact Hw|].
  set (st := {| self := d; world := w |}).
  assert (Hc : clock (world (snd (download_file url st))) = completion_time url st).
  { rewrite (download_file_miss url st Hmiss).
    destruct (outcome _) as [sc text|]; [destruct (status_fails sc)|]; reflexivity. }
  rewrite Hc. unfold completion_time, st. cbn [self world]. rewrite Hw.
  rewrite Z.max_id. reflexivity.
Qed.

Lemma first_request_is_not_delayed_witness :
  clock (world (snd (download_file day1_url (a_state ∅ (answers 200 "ok")))))
  = mid_december + 250000.
Proof.
  exact (proj2 (proj2 (first_request_is_not_delayed 2020 None default_throttle_period
                         (a_world ∅ (answers 200 "ok")) a_downloader
                         (a_world ∅ (answers 200 "ok")) day1_url
                         ltac:(vm_compute; reflexivity) ltac:(vm_compute; reflexivity)))).
Defined.

(** X3.  The throttle spaces the requests: when a request was answered,
    whatever its status, the request of the next cache miss starts no
    earlier than one throttle period after the completion of the first, and
    exactly then when the period is not negative. *)
Theorem throttle_spaces_requests url1 url2 st status_code text lat :
  files (world st) !! cache_file (session_id (self st)) url1 = None ->
  server (world st) (length (sent (world st))) url1 (session_id (self st))
  = {| outcome := Response status_code text; latency := lat |} ->
  files (world (snd (download_file url1 st)))
  !! cache_file (session_id (self (snd (download_file url1 st)))) url2 = None ->
  exists start,
    clock (world (snd (download_file url2 (snd (download_file url1 st)))))
    = start
      + Z.of_N (latency (server (world (snd (download_file url1 st)))
                           (length (sent (world (snd (download_file url1 st)))))
                           url2 (session_id (self st))))
    /\ completion_time url1 st + throttle_period (self st) <= start
    /\ (0 <= throttle_period (self st) ->
        start = completion_time url1 st + throttle_period (self st)).
Proof.
  intros Hmiss Hsrv. 
  assert (H1 : clock (world (snd (download_file url1 st))) = completion_time url1 st
               /\ wait_until (self (snd (download_file url1 st)))
                  = completion_time url1 st + throttle_period (self st)
               /\ session_id (self (snd (download_file url1 st))) = session_id (self st)).
  { rewrite (download_file_miss url1 st Hmiss). rewrite Hsrv. cbn [outcome].
    unfold completion_time. rewrite Hsrv.
    destruct (status_fails status_code); cbn [snd self world]; unfold requested;
      rewrite Hsrv; cbn [outcome latency self world clock set_clock set_sent
                         set_wait_until wait_until session_id];
      repeat split; reflexivity. }
  destruct H1 as (Hc & Hw & Hs).
  set (st1 := snd (download_file url1 st)) in *. intros Hmiss2.
  exists (Z.max (clock (world st1)) (wait_until (self st1))). split; [|split].
  - rewrite (download_file_miss url2 st1 Hmiss2). rewrite <- Hs.
    destruct (outcome _) as [sc' text'|]; [destruct (status_fails sc')|]; reflexivity.
  - rewrite Hw. lia.
  - intros Hp. rewrite Hc, Hw. lia.
Qed.

Lemma throttle_spaces_requests_witness :
  exists start,
    clock (world (snd (download_file (input_url 2020 1)
                         (snd (download_file day1_url st_server_error)))))
    = start + 250000
    /\ mid_december + 250000 + 5000000 <= start.
Proof.
  destruct (throttle_spaces_requests day1_url (input_url 2020 1) st_server_error
              500 "Internal Server Error" 250000%N)
    as (start & H1 & H2 & _); [vm_compute; reflexivity..|].
  exists start. split; [exact H1|exact H2].
Defined.

(** X4.  A fetch never turns the clock back and never changes the year, the
    session or the period of the downloader, the environment or what was
    printed; with a throttle period that is not negative it never moves the
    deadline back either. *)
Theorem fetch_never_turns_back url st :
  clock (world st) <= clock (world (snd (download_file url st)))
  /\ (0 <= throttle_period (self st) ->
      wait_until (self st) <= wait_until (self (snd (download_file url st))))
  /\ year (self (snd (download_file url st))) = year (self st)
  /\ session_id (self (snd (download_file url st))) = session_id (self st)
  /\ throttle_period (self (snd (download_file url st))) = throttle_period (self st)
  /\ environ (world (snd (download_file url st))) = environ (world st)
  /\ stdout (world (snd (download_file url st))) = stdout (world st).
Proof.
  assert (Hreq : clock (world st) <= clock (world (requested url st))
                 /\ (0 <= throttle_period (self st) ->
                     wait_until (self st) <= wait_until (self (requested url st)))
                 /\ year (self (requested url st)) = year (self st)
                 /\ session_id (self (requested url st)) = session_id (self st)
                 /\ throttle_period (self (requested url st)) = throttle_period (self st)
                 /\ environ (world (requested url st)) = environ (world st)
                 /\ stdout (world (requested url st)) = stdout (world st)).
  { unfold requested. cbn [self world clock set_clock set_sent environ stdout].
    destruct (outcome _); cbn [set_wait_until wait_until year session_id throttle_period];
      repeat split; try reflexivity; lia. }
  destruct (download_file_state url st) as [->|[_ [->|[text ->]]]].
  - repeat split; try reflexivity; lia.
  - exact Hreq.
  - exact Hreq.
Qed.

Lemma fetch_never_turns_back_witness :
  wait_until (self st_plain) <= wait_until (self (snd (download_file day1_url st_plain))).
Proof.
  apply (proj1 (proj2 (fetch_never_turns_back day1_url st_plain))).
  vm_compute. discriminate.
Defined.

(** The only file a fetch may write is the cache file of its URL, and only
    when that file is absent. *)
Lemma download_file_files url st :
  files (world (snd (download_file url st))) = files (world st)
  \/ (files (world st) !! cache_file (session_id (self st)) url = None
      /\ exists text,
           files (world (snd (download_file url st)))
           = <[cache_file (session_id (self st)) url := text]> (files (world st))).
Proof.
  destruct (download_file_state url st) as [->|[Hmiss [->|[text ->]]]].
  - left. reflexivity.
  - left. apply requested_files.
  - right. split; [exact Hmiss|]. exists text. reflexivity.
Qed.

(** X5.  A fetch never deletes a file and never changes the content of a
    file that exists; the only path whose content may differ afterwards is
    the cache file of the URL under the session of the downloader. *)
Theorem fetch_writes_only_its_cache_file url st :
  files (world st) ⊆ files (world (snd (download_file url st)))
  /\ (forall p, p <> cache_file (session_id (self st)) url ->
                files (world (snd (download_file url st))) !! p = files (world st) !! p).
Proof.
  destruct (download_file_files url st) as [->|[Hmiss [text ->]]].
  - split; reflexivity.
  - split.
    + apply insert_subseteq, Hmiss.
    + intros p Hp. apply lookup_insert_ne. congruence.
Qed.

Lemma fetch_writes_only_its_cache_file_witness :
  files (world (snd (download_file day1_url st_plain))) !! input_file 1
  = files (world st_plain) !! input_file 1.
Proof.
  apply (proj2 (fetch_writes_only_its_cache_file day1_url st_plain)).
  discriminate.
Defined.

(** X6.  When the server cannot be reached, the fetch raises
    [ConnectionError] after the request is logged and its time has passed;
    the throttle is not reset, so the downloader is as before, and no file
    is written. *)
Theorem unreachable_server_keeps_deadline url st lat :
  files (world st) !! cache_file (session_id (self st)) url = None ->
  server (world st) (length (sent (world st))) url (session_id (self st))
  = {| outcome := Unreachable; latency := lat |} ->
  exists st',
    download_file url st = (Raise ConnectionError, st')
    /\ self st' = self st
    /\ files (world st') = files (world st)
    /\ sent (world st') = (url, session_id (self st)) :: sent (world st)
    /\ clock (world st')
       = Z.max (clock (world st)) (wait_until (self st)) + Z.of_N lat.
Proof.
  intros Hmiss Hsrv. exists (requested url st).
  rewrite (download_file_miss url st Hmiss), Hsrv. cbn [outcome].
  unfold requested. rewrite Hsrv. cbn [outcome latency self world].
  repeat split.
Qed.

Lemma unreachable_server_keeps_deadline_witness :
  exists st',
    download_file day1_url st_offline = (Raise ConnectionError, st')
    /\ self st' = self st_offline
    /\ files (world st') = files (world st_offline)
    /\ sent (world st') = [(day1_url, "53616c")]
    /\ clock (world st') = Z.max mid_december mid_december + 30000000.
Proof.
  apply (unreachable_server_keeps_deadline day1_url st_offline 30000000%N);
    vm_compute; reflexivity.
Defined.

Lemma replace_slash_cons c url :
  Text.replace "/" "_" (String c url)
  = String (if Ascii.eqb "/" c then "_"%char else c) (Text.replace "/" "_" url).
Proof.
  unfold Text.replace. cbn [Text.scan]. unfold Text.literal at 1.
  cbn [Text.startswith]. rewrite andb_true_r.
  destruct (Ascii.eqb "/" c); reflexivity.
Qed.

(** X7.  The name of a cache file holds no slash, so that it is one path
    component below the directory of the session; it is as long as the URL,
    and it is the URL itself when the URL holds no slash. *)
Theorem cache_name_has_no_slash url :
  avoids "/" (Text.replace "/" "_" url) = true
  /\ String.length (Text.replace "/" "_" url) = String.length url
  /\ (avoids "/" url = true -> Text.replace "/" "_" url = url).
Proof.
  induction url as [|c url (IH1 & IH2 & IH3)]; [repeat split|].
  rewrite replace_slash_cons. cbn [avoids String.length]. rewrite IH1, IH2.
  rewrite (Ascii.eqb_sym c "/").
  destruct (Ascii.eqb "/" c) eqn:E; cbn [negb andb].
  - repeat split. discriminate.
  - rewrite Ascii.eqb_sym, E. repeat split. intros H. rewrite IH3 by exact H. reflexivity.
Qed.

Lemma cache_name_has_no_slash_witness :
  Text.replace "/" "_" "input" = "input".
Proof.
  apply (proj2 (proj2 (cache_name_has_no_slash "input"))). vm_compute. reflexivity.
Defined.






(** * Further properties of the construction and of the release gate *)

(** X2.  Without a session in the environment the downloader cannot be made
    from the default: [AOCDownloader(...)] with no session, or with an
    empty one, raises [KeyError], and so does the driver, before it touches
    a file or sends a request.  An explicit session that is not empty is
    taken as it is, whatever the environment holds. *)
Theorem missing_session_aborts_run bs4 w :
  (environ w !! "AOC_SESSION_ID" = None ->
   (forall year period,
       init year None period w = (Raise KeyError, w)
       /\ init year (Some EmptyString) period w = (Raise KeyError, w))
   /\ main bs4 w = (Raise KeyError, w))
  /\ (forall year c session period,
         init year (Some (String c session)) period w
         = (Return {| year := year; session_id := String c session;
                      throttle_period := period; wait_until := clock w |}, w)).
Proof.
  split.
  - intros Henv. split.
    + intros year period. unfold init. cbn [Text.truthy]. rewrite Henv.
      split; reflexivity.
    + rewrite main_unfold, Henv. reflexivity.
  - reflexivity.
Qed.

Lemma missing_session_aborts_run_witness :
  main (parse_as article) w_no_session = (Raise KeyError, w_no_session)
  /\ fst (init 2020 (Some "0badc0de") default_throttle_period w_november)
     = Return {| year := 2020; session_id := "0badc0de";
                 throttle_period := default_throttle_period;
                 wait_until := end_of_november |}.
Proof.
  split.
  - apply (proj1 (missing_session_aborts_run (parse_as article) w_no_session)).
    vm_compute. reflexivity.
  - rewrite (proj2 (missing_session_aborts_run (parse_as article) w_november)).
    reflexivity.
Defined.

Lemma problem_released_invalid day st :
  day < 1 \/ 31 < day \/ year (self st) < 1 \/ 9999 < year (self st) ->
  problem_released day st
  = (Raise (if Datetime.fits_int (year (self st)) && Datetime.fits_int day
            then ValueError else OverflowError), st).
Proof.
  intros H. unfold problem_released, bind, get, Datetime.make.
  change (Datetime.fits_int 12) with true. rewrite andb_true_r.
  destruct (Datetime.fits_int (year (self st)) && Datetime.fits_int day);
    [|reflexivity].
  cbn [negb].
  change (Datetime.days_in_month (year (self st)) 12) with 31.
  replace ((1 <=? year (self st)) && (year (self st) <=? 9999)
           && (1 <=? 12) && (12 <=? 12) && (1 <=? day) && (day <=? 31))
    with false; [reflexivity|].
  symmetry. apply not_true_is_false. intros E.
  repeat (apply andb_true_iff in E as [E ?]). lia.
Qed.

(** X9.  A day outside 1 to 31, or a year outside 1 to 9999, is no date of
    December: the release gate raises, and so do the two downloads, which
    ask the gate first; nothing is sent and nothing changes.  The exception
    is [ValueError] when the day and the year fit a C [int], and
    [OverflowError] when one of them does not. *)
Theorem release_gate_rejects_bad_dates bs4 day st :
  day < 1 \/ 31 < day \/ year (self st) < 1 \/ 9999 < year (self st) ->
  problem_released day st
  = (Raise (if Datetime.fits_int (year (self st)) && Datetime.fits_int day
            then ValueError else OverflowError), st)
  /\ download_input day st
     = (Raise (if Datetime.fits_int (year (self st)) && Datetime.fits_int day
               then ValueError else OverflowError), st)
  /\ download_examples bs4 day st
     = (Raise (if Datetime.fits_int (year (self st)) && Datetime.fits_int day
               then ValueError else OverflowError), st).
Proof.
  intros H. pose proof (problem_released_invalid day st H) as E.
  split; [exact E|].
  split; [unfold download_input|unfold download_examples];
    unfold bind at 1; rewrite E; reflexivity.
Qed.

Lemma release_gate_rejects_bad_dates_witness :
  download_input 32 st_plain = (Raise ValueError, st_plain)
  /\ download_input 2147483648 st_plain = (Raise OverflowError, st_plain).
Proof.
  split.
  - apply (proj1 (proj2 (release_gate_rejects_bad_dates (parse_as article) 32 st_plain
                           ltac:(lia)))).
  - apply (proj1 (proj2 (release_gate_rejects_bad_dates (parse_as article) 2147483648
                           st_plain ltac:(lia)))).
Defined.

Lemma problem_released_valid day st released st' :
  problem_released day st = (Return released, st') ->
  1 <= year (self st) <= 9999 /\ 1 <= day <= 31.
Proof.
  intros H.
  destruct (Z_le_dec 1 day); [destruct (Z_le_dec day 31);
    [destruct (Z_le_dec 1 (year (self st))); [destruct (Z_le_dec (year (self st)) 9999)|]|]|];
    try lia;
    rewrite problem_released_invalid in H by lia; discriminate.
Qed.

Lemma release_instant_mono year day day' :
  day' <= day -> release_instant year day' <= release_instant year day.
Proof.
  intros H. unfold release_instant. rewrite !december_ordinal.
  unfold Datetime.ymd2ord, Datetime.us_per_day, Datetime.us_per_hour,
    Datetime.us_per_second. lia.
Qed.

(** X10.  The gate is monotone: a puzzle that is released stays released
    as the clock moves on, and when the puzzle of a day is released, so are
    the puzzles of the days before it. *)
Theorem release_is_monotone day day' st st' :
  problem_released day st = (Return true, st) ->
  year (self st') = year (self st) ->
  clock (world st) <= clock (world st') ->
  1 <= day' <= day ->
  problem_released day' st' = (Return true, st').
Proof.
  intros H Hy Hc Hd. destruct (problem_released_valid _ _ _ _ H) as [Hyr Hday].
  rewrite problem_released_spec in H by assumption.
  rewrite problem_released_spec by (rewrite ?Hy; lia).
  injection H as H. apply Z.ltb_lt in H.
  pose proof (release_instant_mono (year (self st)) day day' ltac:(lia)).
  rewrite Hy. replace (_ <? _) with true; [reflexivity|].
  symmetry. apply Z.ltb_lt. lia.
Qed.

Lemma release_is_monotone_witness :
  problem_released 3 {| self := a_downloader;
                        world := set_clock (mid_december + 1) (a_world ∅ (answers 200 "ok")) |}
  = (Return true,
     {| self := a_downloader;
        world := set_clock (mid_december + 1) (a_world ∅ (answers 200 "ok")) |}).
Proof.
  apply (release_is_monotone 14 3 (a_state ∅ (answers 200 "ok"))).
  - vm_compute. reflexivity.
  - reflexivity.
  - vm_compute. discriminate.
  - lia.
Defined.

Lemma downloads_unreleased bs4 day st :
  1 <= year (self st) <= 9999 -> 1 <= day <= 31 ->
  clock (world st) <= release_instant (year (self st)) day ->
  download_input day st = (Return None, st)
  /\ download_examples bs4 day st = (Return None, st).
Proof.
  intros Hy Hd Hc.
  assert (E : problem_released day st = (Return false, st)).
  { rewrite problem_released_spec by assumption.
    replace (_ <? _) with false; [reflexivity|]. symmetry. apply Z.ltb_ge. exact Hc. }
  split; [unfold download_input|unfold download_examples];
    unfold bind at 1; rewrite E; reflexivity.
Qed.

(** X11.  Up to the release instant of a day, the instant itself included,
    neither the input nor the examples of the day are fetched: both
    downloads return [None] and leave the state as it is, even when the
    cache holds the page; and the input pass of the driver skips the day
    without a word. *)
Theorem unreleased_day_is_not_fetched bs4 day st :
  1 <= year (self st) <= 9999 -> 1 <= day <= 31 ->
  clock (world st) <= release_instant (year (self st)) day ->
  download_input day st = (Return None, st)
  /\ download_examples bs4 day st = (Return None, st)
  /\ sync_input day st = (Return tt, st).
Proof.
  intros Hy Hd Hc.
  destruct (downloads_unreleased bs4 day st Hy Hd Hc) as [H1 H2].
  split; [exact H1|]. split; [exact H2|].
  unfold sync_input. unfold bind at 1, get. cbn [fst snd].
  destruct (file_exists (input_file day) (world st)); [reflexivity|].
  unfold bind. rewrite H1. reflexivity.
Qed.

Lemma unreleased_day_is_not_fetched_witness :
  download_input 25 st_already_cached = (Return None, st_already_cached)
  /\ download_examples (parse_as article) 25 st_already_cached
     = (Return None, st_already_cached)
  /\ sync_input 25 st_already_cached = (Return tt, st_already_cached).
Proof.
  apply (unreleased_day_is_not_fetched (parse_as article) 25 st_already_cached);
    vm_compute; try split; discriminate.
Defined.

(** * Further properties of the driver *)

(** ** File names *)

Lemma str_inj n m : Text.str n = Text.str m -> n = m.
Proof.
  unfold Text.str. intros H. apply DecimalZ.to_int_inj.
  assert (Hn : forall z, NilZero.int_of_string (NilZero.string_of_int (Z.to_int z))
                         = Some (Z.to_int z)).
  { intros z. apply NilZero.isi; destruct z; simpl; intros E; try discriminate;
      injection E as E; exact (DecimalPos.Unsigned.to_uint_nonnil _ E). }
  pose proof (Hn n) as E1. rewrite H, Hn in E1. congruence.
Qed.

Lemma append_inv_head s t t' : s +:+ t = s +:+ t' -> t = t'.
Proof.
  induction s as [|c s IH]; [rewrite !app_nil_l; auto|].
  rewrite !app_cons. intros [= E]. auto.
Qed.

Lemma append_inv_tail s s' t : s +:+ t = s' +:+ t -> s = s'.
Proof.
  revert s'. induction s as [|c s IH]; intros [|c' s']; rewrite ?app_cons, ?app_nil_l.
  - reflexivity.
  - intros E. apply (f_equal String.length) in E. cbn [String.length] in E.
    rewrite length_app' in E. lia.
  - intros E. apply (f_equal String.length) in E. cbn [String.length] in E.
    rewrite length_app' in E. lia.
  - intros [= -> E]. f_equal. auto.
Qed.

Lemma example_file_inj day i j : example_file day i = example_file day j -> i = j.
Proof.
  unfold example_file. intros [= E].
  do 3 apply append_inv_head in E. apply append_inv_tail, str_inj in E. lia.
Qed.

Lemma substring_skip a t n :
  String.substring (String.length a) n (a +:+ t) = String.substring 0 n t.
Proof. induction a as [|c a IH]; [reflexivity|]. rewrite app_cons. exact IH. Qed.

Lemma substring_all t : String.substring 0 (String.length t) t = t.
Proof. induction t as [|c t IH]; [reflexivity|]. cbn [String.length String.substring]. rewrite IH. reflexivity. Qed.

Lemma ends_with_app a t : ends_with t (a +:+ t) = true.
Proof.
  unfold ends_with. rewrite length_app'.
  replace (String.length a + String.length t - String.length t)%nat
    with (String.length a) by lia.
  rewrite substring_skip, substring_all, String.eqb_refl.
  apply andb_true_iff. split; [|reflexivity]. apply Nat.leb_le. lia.
Qed.

(** The files the driver writes for the examples of a day are among those
    the pattern of the day finds. *)
Lemma example_file_matches day i :
  exists name, example_file day i = ["inputs"; name]
               /\ example_pattern_matches day name = true.
Proof.
  eexists. split; [reflexivity|]. unfold example_pattern_matches.
  set (dd := Text.format_02d day). set (x := Text.str (i + 1)).
  apply andb_true_iff; split; [apply andb_true_iff; split|].
  - apply startswith_app. exists (x +:+ ".txt"). rewrite !app_assoc'. reflexivity.
  - replace ("day" +:+ dd +:+ "_example" +:+ x +:+ ".txt")
      with (("day" +:+ dd +:+ "_example" +:+ x) +:+ ".txt")
      by (rewrite !app_assoc'; reflexivity).
    apply ends_with_app.
  - apply Nat.leb_le. rewrite !length_app'. cbn [String.length]. lia.
Qed.

Lemma example_file_absent day i w :
  glob_examples day w = [] -> files w !! example_file day i = None.
Proof.
  intros Hglob. apply eq_None_not_Some. intros Hsome.
  destruct (example_file_matches day i) as (name & E & Hm). rewrite E in Hsome.
  apply (proj2 (glob_examples_found day w)); eauto.
Qed.

(** ** What a run keeps *)

Lemma proceeds_refl allowed st : proceeds allowed 0 st st.
Proof. split; auto; try reflexivity. exists []. repeat split; constructor. Qed.

Lemma proceeds_more allowed n n' st0 st :
  (n <= n')%nat -> proceeds allowed n st0 st -> proceeds allowed n' st0 st.
Proof.
  intros Hn [Hy Hs Hp Hf (new & E & Hl & Ha) Hc]. split; auto.
  exists new. repeat split; auto. lia.
Qed.

Lemma proceeds_bind {A B} allowed st0 (m : M State A) (f : A -> M State B) n k1 k2 st :
  proceeds allowed (n + k1) st0 (snd (m st)) ->
  (forall a st', proceeds allowed (n + k1) st0 st' ->
                 proceeds allowed (n + k1 + k2) st0 (snd (f a st'))) ->
  proceeds allowed (n + k1 + k2) st0 (snd (bind m f st)).
Proof.
  intros Hm Hf. unfold bind. destruct (m st) as [[a|e] st']; cbn [snd] in *.
  - apply Hf, Hm.
  - eapply proceeds_more; [|exact Hm]. lia.
Qed.

Lemma proceeds_for_each {A} allowed st0 (l : list A) (body : A -> M State unit) :
  (forall a n st, In a l -> proceeds allowed n st0 st ->
                  proceeds allowed (n + 1) st0 (snd (body a st))) ->
  forall n st, proceeds allowed n st0 st ->
               proceeds allowed (n + length l) st0 (snd (for_each l body st)).
Proof.
  induction l as [|a l IH]; intros Hbody n st Hst; cbn [for_each length].
  - eapply proceeds_more; [|exact Hst]. lia.
  - replace (n + S (length l))%nat with (n + 1 + length l)%nat by lia.
    unfold bind. pose proof (Hbody a n st (or_introl eq_refl) Hst) as Ha.
    destruct (body a st) as [[[]|e] st']; cbn [snd] in *.
    + apply IH; [|exact Ha]. intros b m s Hb. apply Hbody. right. exact Hb.
    + eapply proceeds_more; [|exact Ha]. lia.
Qed.

Lemma proceeds_write allowed st0 p text n st :
  files (world st0) !! p = None ->
  proceeds allowed n st0 st ->
  proceeds allowed n st0 (snd (in_world (file_write p text) st)).
Proof.
  intros Hp [Hy Hs Hpe Hf Hsent Hc]. split; auto.
  cbn. apply insert_subseteq_r; assumption.
Qed.

Lemma proceeds_print allowed st0 line n st :
  proceeds allowed n st0 st ->
  proceeds allowed n st0 (snd (in_world (print line) st)).
Proof. intros [Hy Hs Hpe Hf Hsent Hc]. split; auto. Qed.

Lemma proceeds_requested allowed st0 url n st :
  allowed (url, session_id (self st0)) ->
  proceeds allowed n st0 st -> proceeds allowed (n + 1) st0 (requested url st).
Proof.
  intros Hu [Hy Hs Hpe Hf (new & E & Hl & Ha) Hc].
  destruct (requested_self_fields url st) as [Hy' Hp']. split.
  - congruence.
  - rewrite requested_session. exact Hs.
  - congruence.
  - rewrite requested_files. exact Hf.
  - exists ((url, session_id (self st)) :: new). rewrite requested_sent, E.
    repeat split.
    + cbn [length]. lia.
    + constructor; [rewrite Hs; exact Hu|exact Ha].
  - rewrite requested_clock. pose proof (completion_time_ge url st). lia.
Qed.

Lemma proceeds_download_file allowed st0 url n st :
  allowed (url, session_id (self st0)) ->
  proceeds allowed n st0 st ->
  proceeds allowed (n + 1) st0 (snd (download_file url st)).
Proof.
  intros Hu Hst. pose proof (proceeds_requested allowed st0 url n st Hu Hst) as Hreq.
  destruct (download_file_state url st) as [->|[Hmiss [->|[text ->]]]].
  - eapply proceeds_more; [|exact Hst]. lia.
  - exact Hreq.
  - destruct Hreq as [Hy Hs Hpe Hf Hsent Hc]. split; auto.
    cbn [world set_files files]. apply insert_subseteq_r; [|exact Hf].
    apply (lookup_weaken_None _ (files (world st))); [exact Hmiss|].
    apply (proceeds_files _ _ _ _ Hst).
Qed.

Lemma proceeds_download_input allowed st0 day n st :
  allowed (input_url (year (self st0)) day, session_id (self st0)) ->
  proceeds allowed n st0 st ->
  proceeds allowed (n + 1) st0 (snd (download_input day st)).
Proof.
  intros Hu Hst. unfold download_input, bind at 1.
  destruct (problem_released day st) as [r st'] eqn:E.
  assert (Est : st' = st) by (rewrite <- (problem_released_state day st), E; reflexivity).
  subst st'. destruct r as [[|]|e]; cbn [negb snd];
    try (eapply proceeds_more; [|exact Hst]; lia).
  unfold bind at 1, get. unfold bind.
  pose proof (proceeds_download_file allowed st0 (input_url (year (self st)) day) n st) as H.
  rewrite (proceeds_year _ _ _ _ Hst) in H. specialize (H Hu Hst).
  rewrite (proceeds_year _ _ _ _ Hst).
  destruct (download_file _ st) as [[text|e] st1]; exact H.
Qed.

Lemma proceeds_download_examples bs4 allowed st0 day n st :
  allowed (puzzle_url (year (self st0)) day, session_id (self st0)) ->
  proceeds allowed n st0 st ->
  proceeds allowed (n + 1) st0 (snd (download_examples bs4 day st)).
Proof.
  intros Hu Hst. unfold download_examples, bind at 1.
  destruct (problem_released day st) as [r st'] eqn:E.
  assert (Est : st' = st) by (rewrite <- (problem_released_state day st), E; reflexivity).
  subst st'. destruct r as [[|]|e]; cbn [negb snd];
    try (eapply proceeds_more; [|exact Hst]; lia).
  unfold bind at 1, get. unfold bind at 1.
  pose proof (proceeds_download_file allowed st0 (puzzle_url (year (self st)) day) n st) as H.
  rewrite (proceeds_year _ _ _ _ Hst) in H. specialize (H Hu Hst).
  rewrite (proceeds_year _ _ _ _ Hst).
  destruct (download_file _ st) as [[html|e] st1]; [|exact H].
  unfold bind, of_result, ret. destruct (collect_examples _ _ _); exact H.
Qed.

Lemma proceeds_sync_examples bs4 allowed st0 day n st :
  allowed (puzzle_url (year (self st0)) day, session_id (self st0)) ->
  proceeds allowed n st0 st ->
  proceeds allowed (n + 1) st0 (snd (sync_examples bs4 day st)).
Proof.
  intros Hu Hst. unfold sync_examples. unfold bind at 1, get. cbn [fst snd].
  destruct (glob_examples day (world st)) eqn:Hglob;
    [|eapply proceeds_more; [|exact Hst]; lia].
  pose proof (proceeds_download_examples bs4 allowed st0 day n st Hu Hst) as H.
  unfold bind at 1. destruct (download_examples bs4 day st) as [[[examples|]|e] st1];
    cbn [snd] in *; try exact H.
  replace (n + 1)%nat with (n + 1 + 0)%nat by lia.
  assert (Habsent : forall i, files (world st0) !! example_file day i = None).
  { intros i. apply (lookup_weaken_None _ (files (world st)));
      [apply example_file_absent, Hglob|apply (proceeds_files _ _ _ _ Hst)]. }
  generalize (enumerate examples). intros l. revert st1 H.
  generalize (n + 1)%nat. clear - Habsent. intros m.
  induction l as [|[i example] l IH]; intros st1 H; cbn [for_each].
  - eapply proceeds_more; [|exact H]. lia.
  - unfold bind at 1. unfold bind at 1.
    cbn [in_world file_write print fst snd world self]. apply IH.
    apply (proceeds_print allowed st0 _ m
             (snd (in_world (file_write (example_file day i) example) st1))).
    apply proceeds_write; [apply Habsent|exact H].
Qed.

Lemma proceeds_sync_input allowed st0 day n st :
  allowed (input_url (year (self st0)) day, session_id (self st0)) ->
  proceeds allowed n st0 st ->
  proceeds allowed (n + 1) st0 (snd (sync_input day st)).
Proof.
  intros Hu Hst. unfold sync_input. unfold bind at 1, get. cbn [fst snd].
  destruct (file_exists (input_file day) (world st)) eqn:Hex;
    [eapply proceeds_more; [|exact Hst]; lia|].
  pose proof (proceeds_download_input allowed st0 day n st Hu Hst) as H.
  unfold bind at 1. destruct (download_input day st) as [[[text|]|e] st1];
    cbn [snd] in *; try exact H.
  destruct (Text.truthy text); [|exact H].
  unfold bind. cbn [in_world file_write print fst snd world self].
  apply (proceeds_print allowed st0 _ (n + 1)
           (snd (in_world (file_write (input_file day) text) st1))).
  apply proceeds_write; [|exact H].
  apply (lookup_weaken_None _ (files (world st)));
    [apply file_exists_false, Hex|apply (proceeds_files _ _ _ _ Hst)].
Qed.

(** The two passes of the driver, on a downloader of any year. *)
Lemma proceeds_passes bs4 st0 :
  proceeds (driver_request (year (self st0)) (session_id (self st0))) 50 st0
    (snd ((for_each (range 1 26) (sync_examples bs4) ;;
           for_each (range 1 26) sync_input) st0)).
Proof.
  set (allowed := driver_request (year (self st0)) (session_id (self st0))).
  change 50%nat with (0 + length (range 1 26) + length (range 1 26))%nat.
  apply proceeds_bind.
  - apply proceeds_for_each; [|apply proceeds_refl].
    intros day n st Hday Hst. apply in_range in Hday.
    apply proceeds_sync_examples; [|exact Hst].
    split; [reflexivity|]. exists day. split; [lia|left; reflexivity].
  - intros _ st1 Hst1. apply proceeds_for_each; [|exact Hst1].
    intros day n st Hday Hst. apply in_range in Hday.
    apply proceeds_sync_input; [|exact Hst].
    split; [reflexivity|]. exists day. split; [lia|right; reflexivity].
Qed.

Lemma main_proceeds bs4 w sid :
  environ w !! "AOC_SESSION_ID" = Some sid ->
  files w ⊆ files (snd (main bs4 w))
  /\ (exists new, sent (snd (main bs4 w)) = (new ++ sent w)%list
                  /\ (length new <= 50)%nat
                  /\ Forall (driver_request 2020 sid) new)
  /\ clock w <= clock (snd (main bs4 w)).
Proof.
  intros Henv. rewrite main_unfold, Henv. cbv zeta. cbn [snd].
  match goal with |- context [snd (?m ?st0)] =>
    pose proof (proceeds_passes bs4 st0) as H end.
  destruct H as [_ _ _ Hf Hsent Hc]. auto.
Qed.

(** X16.  A run of the driver never deletes a file and never changes the
    content of a file that was there when it started: the cache files, the
    example files and the input files it writes are all new. *)
Theorem run_keeps_every_file bs4 w p data :
  files w !! p = Some data -> files (snd (main bs4 w)) !! p = Some data.
Proof.
  intros H. destruct (environ w !! "AOC_SESSION_ID") as [sid|] eqn:Henv.
  - destruct (main_proceeds bs4 w sid Henv) as (Hf & _).
    apply (lookup_weaken _ _ _ _ H Hf).
  - rewrite main_unfold, Henv. exact H.
Qed.

Lemma run_keeps_every_file_witness :
  files (snd (main (parse_as article) w_november)) !! example_file 1 0 = Some "1721".
Proof.
  apply (run_keeps_every_file (parse_as article) w_november (example_file 1 0) "1721").
  vm_compute. reflexivity.
Defined.

(** X17.  A run of the driver sends at most fifty requests, and each of
    them asks for the puzzle page or for the input of a day from 1 to 25 of
    the year 2020, with the session of the environment as its cookie. *)
Theorem run_requests_are_aoc_pages bs4 w sid :
  environ w !! "AOC_SESSION_ID" = Some sid ->
  exists new,
    sent (snd (main bs4 w)) = (new ++ sent w)%list
    /\ (length new <= 50)%nat
    /\ Forall (driver_request 2020 sid) new.
Proof. intros Henv. apply (main_proceeds bs4 w sid Henv). Qed.

Lemma run_requests_are_aoc_pages_witness :
  exists new,
    sent (snd (main (parse_as article) (a_world ∅ (answers 200 "1721"))))
    = (new ++ [])%list
    /\ (length new <= 50)%nat
    /\ Forall (driver_request 2020 "53616c") new.
Proof.
  apply (run_requests_are_aoc_pages (parse_as article) (a_world ∅ (answers 200 "1721"))).
  vm_compute. reflexivity.
Defined.

(** ** The example pass *)

Lemma sync_examples_unreleased bs4 day st :
  1 <= year (self st) <= 9999 -> 1 <= day <= 31 ->
  clock (world st) <= release_instant (year (self st)) day ->
  glob_examples day (world st) = [] ->
  sync_examples bs4 day st = (Raise TypeError, st).
Proof.
  intros Hy Hd Hc Hglob. unfold sync_examples. unfold bind at 1, get. cbn [fst snd].
  rewrite Hglob. unfold bind at 1.
  rewrite (proj2 (downloads_unreleased bs4 day st Hy Hd Hc)). reflexivity.
Qed.

Lemma for_each_skip_stop {S A} (l1 l2 : list A) a (body : A -> M S unit) st e st' :
  (forall x, In x l1 -> body x st = (Return tt, st)) ->
  body a st = (Raise e, st') ->
  for_each (l1 ++ a :: l2) body st = (Raise e, st').
Proof.
  intros Hskip Ha. induction l1 as [|x l1 IH]; cbn [app for_each]; unfold bind.
  - rewrite Ha. reflexivity.
  - rewrite (Hskip x (or_introl eq_refl)). apply IH.
    intros y Hy. apply Hskip. right. exact Hy.
Qed.

Lemma range_split day :
  1 <= day <= 25 ->
  range 1 26 = (range 1 day ++ day :: range (day + 1) 26)%list.
Proof.
  intros Hd. unfold range.
  replace (26 - 1) with ((day - 1) + (26 - day)) by lia.
  rewrite seqZ_app by lia. f_equal.
  replace (1 + (day - 1)) with day by lia.
  rewrite (seqZ_cons day) by lia. f_equal. f_equal; lia.
Qed.

(** X12.  The example pass has no way around a puzzle that is not out: when
    the days before [day] have their example files, [day] has none, and its
    puzzle is not released, the download returns [None], the loop over it
    raises [TypeError], and the run ends there; it has written nothing and
    sent nothing, and the input pass is not reached. *)
Theorem unreleased_day_aborts_run bs4 w sid day :
  environ w !! "AOC_SESSION_ID" = Some sid ->
  1 <= day <= 25 ->
  (forall d, 1 <= d < day -> glob_examples d w <> []) ->
  glob_examples day w = [] ->
  clock w <= release_instant 2020 day ->
  main bs4 w = (Raise TypeError, w).
Proof.
  intros Henv Hd Hbefore Hglob Hc. rewrite main_unfold, Henv. cbv zeta.
  set (st0 := {| self := _; world := w |}).
  assert (E : for_each (range 1 26) (sync_examples bs4) st0 = (Raise TypeError, st0)).
  { rewrite (range_split day Hd). apply for_each_skip_stop.
    - intros d Hin. apply in_range in Hin. apply sync_examples_skip, Hbefore. lia.
    - apply sync_examples_unreleased; cbn [st0 self world year]; try lia; assumption. }
  unfold bind. rewrite E. reflexivity.
Qed.

Lemma unreleased_day_aborts_run_witness :
  main (parse_as article) w_fresh_november = (Raise TypeError, w_fresh_november).
Proof.
  apply (unreleased_day_aborts_run (parse_as article) w_fresh_november "53616c" 1).
  - vm_compute. reflexivity.
  - lia.
  - intros d Hd. lia.
  - vm_compute. reflexivity.
  - vm_compute. discriminate.
Defined.

Lemma save_examples_spec day examples : forall k st,
  fst (save_examples day (zip (seqZ k (Z.of_nat (length examples))) examples) st)
  = Return tt
  /\ (forall i example,
         examples !! i = Some example ->
         files (world (snd (save_examples day
                              (zip (seqZ k (Z.of_nat (length examples))) examples) st)))
         !! example_file day (k + Z.of_nat i) = Some example)
  /\ (forall p,
         (forall i, (i < length examples)%nat -> p <> example_file day (k + Z.of_nat i)) ->
         files (world (snd (save_examples day
                              (zip (seqZ k (Z.of_nat (length examples))) examples) st)))
         !! p = files (world st) !! p)
  /\ stdout (world (snd (save_examples day
                           (zip (seqZ k (Z.of_nat (length examples))) examples) st)))
     = (rev (map (saved_example day) (seqZ k (Z.of_nat (length examples))))
        ++ stdout (world st))%list.
Proof.
  induction examples as [|example examples IH]; intros k st.
  - repeat split. intros i x Hx. discriminate.
  - assert (Hseq : seqZ k (Z.of_nat (length (example :: examples)))
                   = k :: seqZ (k + 1) (Z.of_nat (length examples))).
    { rewrite seqZ_cons by (cbn [length]; lia). f_equal. f_equal; cbn [length]; lia. }
    rewrite Hseq. cbn [zip zip_with]. unfold save_examples. cbn [for_each].
    unfold bind at 1 4 7 10. unfold bind at 1 3 5 7.
    cbn [in_world file_write print fst snd world self].
    set (st1 := {| self := self st;
                   world := set_stdout _ (set_files _ (world st)) |}).
    destruct (IH (k + 1) st1) as (H1 & H2 & H3 & H4).
    unfold save_examples in H1, H2, H3, H4. split; [exact H1|]. split; [|split].
    + intros [|i] x Hx.
      * injection Hx as ->. rewrite H3.
        -- replace (k + Z.of_nat 0) with k by lia. apply lookup_insert_eq.
        -- intros i _ E. apply example_file_inj in E. lia.
      * replace (k + Z.of_nat (S i)) with (k + 1 + Z.of_nat i) by lia.
        apply H2. exact Hx.
    + intros p Hp. rewrite H3.
      * apply lookup_insert_ne. intros E. apply (Hp 0%nat); [cbn [length]; lia|].
        rewrite <- E. f_equal. lia.
      * intros i Hi. replace (k + 1 + Z.of_nat i) with (k + Z.of_nat (S i)) by lia.
        apply Hp. cbn [length]. lia.
    + rewrite H4. cbn [map rev]. rewrite <- app_assoc. reflexivity.
Qed.

Lemma sync_examples_saves bs4 day st examples st1 :
  glob_examples day (world st) = [] ->
  download_examples bs4 day st = (Return (Some examples), st1) ->
  sync_examples bs4 day st = save_examples day (enumerate examples) st1.
Proof.
  intros Hglob Hdl. unfold sync_examples. unfold bind at 1, get. cbn [fst snd].
  rewrite Hglob. unfold bind at 1. rewrite Hdl. reflexivity.
Qed.

(** X13.  When a day has no example file and the download gives a list of
    examples, the driver saves every example in a file of its own, in the
    order of the list: the example at the position [i], counted from 0, goes
    to the file numbered [i + 1], while the line printed for it carries the
    number [i]; no other file changes; and when the list is not empty, the
    pattern of the day finds a file afterwards, so that the next run skips
    the day. *)
Theorem examples_are_saved_in_order bs4 day st examples st1 :
  glob_examples day (world st) = [] ->
  download_examples bs4 day st = (Return (Some examples), st1) ->
  exists st2,
    sync_examples bs4 day st = (Return tt, st2)
    /\ (forall i example,
           examples !! i = Some example ->
           files (world st2) !! example_file day (Z.of_nat i) = Some example)
    /\ (forall p,
           (forall i, (i < length examples)%nat -> p <> example_file day (Z.of_nat i)) ->
           files (world st2) !! p = files (world st1) !! p)
    /\ stdout (world st2)
       = (rev (map (saved_example day) (seqZ 0 (Z.of_nat (length examples))))
          ++ stdout (world st1))%list
    /\ (examples <> [] -> glob_examples day (world st2) <> []).
Proof.
  intros Hglob Hdl. rewrite (sync_examples_saves _ _ _ _ _ Hglob Hdl).
  unfold enumerate.
  destruct (save_examples_spec day examples 0 st1) as (H1 & H2 & H3 & H4).
  destruct (save_examples day _ st1) as [r st2]. cbn [fst snd] in *. subst r.
  exists st2. split; [reflexivity|]. split; [exact H2|]. split; [exact H3|].
  split; [exact H4|].
  intros Hne. destruct examples as [|example examples]; [contradiction|].
  apply glob_examples_found.
  destruct (example_file_matches day 0) as (name & E & Hm).
  exists name. split; [|exact Hm]. rewrite <- E.
  exists example. exact (H2 0%nat example eq_refl).
Qed.

Lemma examples_are_saved_in_order_witness :
  exists st2,
    sync_examples (parse_as article) 1 st_page_cached = (Return tt, st2)
    /\ files (world st2) !! example_file 1 0 = Some "1721"
    /\ stdout (world st2) = ["Saved example 0 of day 01"].
Proof.
  destruct (examples_are_saved_in_order (parse_as article) 1 st_page_cached
              ["1721"] st_page_cached)
    as (st2 & H1 & H2 & _ & H4 & _).
  - vm_compute. reflexivity.
  - vm_compute. reflexivity.
  - exists st2. split; [exact H1|]. split; [exact (H2 0%nat "1721" eq_refl)|].
    rewrite H4. vm_compute. reflexivity.
Defined.

Lemma download_examples_cached bs4 day st data :
  1 <= year (self st) <= 9999 -> 1 <= day <= 31 ->
  release_instant (year (self st)) day < clock (world st) ->
  files (world st) !! cache_file (session_id (self st)) (puzzle_url (year (self st)) day)
  = Some data ->
  download_examples bs4 day st
  = (match collect_examples bs4
             (Soup.find_all "pre"
                (Soup.BeautifulSoup bs4 (Text.universal_newlines data))) [] with
     | Return examples => Return (Some examples)
     | Raise e => Raise e
     end, st).
Proof.
  intros Hy Hd Hc Hhit. apply download_examples_released.
  - rewrite problem_released_spec by assumption.
    replace (_ <? _) with true by (symmetry; apply Z.ltb_lt; exact Hc). reflexivity.
  - apply download_file_hit, Hhit.
Qed.

(** X23.  A released day whose page gives no example is never settled: with
    the page in the cache and no block kept, the step of the example pass
    returns and leaves the state as it is; no file is written for the day,
    so that every later run reads and parses the cached page again, without
    a request. *)
Theorem day_without_examples_is_revisited bs4 day st data :
  1 <= year (self st) <= 9999 -> 1 <= day <= 31 ->
  release_instant (year (self st)) day < clock (world st) ->
  glob_examples day (world st) = [] ->
  files (world st) !! cache_file (session_id (self st)) (puzzle_url (year (self st)) day)
  = Some data ->
  collect_examples bs4
    (Soup.find_all "pre" (Soup.BeautifulSoup bs4 (Text.universal_newlines data))) []
  = Return [] ->
  download_examples bs4 day st = (Return (Some []), st)
  /\ sync_examples bs4 day st = (Return tt, st)
  /\ glob_examples day (world (snd (sync_examples bs4 day st))) = [].
Proof.
  intros Hy Hd Hc Hglob Hhit Hnone.
  pose proof (download_examples_cached bs4 day st data Hy Hd Hc Hhit) as E.
  rewrite Hnone in E. split; [exact E|].
  rewrite (sync_examples_saves _ _ _ _ _ Hglob E). split; [reflexivity|exact Hglob].
Qed.

Lemma day_without_examples_is_revisited_witness :
  sync_examples (parse_as aside) 1 st_page_cached = (Return tt, st_page_cached).
Proof.
  apply (proj1 (proj2 (day_without_examples_is_revisited (parse_as aside) 1
                         st_page_cached "<article>"
                         ltac:(vm_compute; split; discriminate)
                         ltac:(lia)
                         ltac:(vm_compute; reflexivity)
                         ltac:(vm_compute; reflexivity)
                         ltac:(vm_compute; reflexivity)
                         ltac:(vm_compute; reflexivity)))).
Defined.

(** ** The input pass *)

Lemma download_input_released day st :
  1 <= year (self st) <= 9999 -> 1 <= day <= 31 ->
  release_instant (year (self st)) day < clock (world st) ->
  download_input day st
  = match download_file (input_url (year (self st)) day) st with
    | (Return text, st1) => (Return (Some text), st1)
    | (Raise e, st1) => (Raise e, st1)
    end.
Proof.
  intros Hy Hd Hc. unfold download_input. unfold bind at 1.
  rewrite problem_released_spec by assumption.
  replace (_ <? _) with true by (symmetry; apply Z.ltb_lt; exact Hc).
  cbn [negb]. unfold bind, get, ret.
  destruct (download_file _ st) as [[text|e] st1]; reflexivity.
Qed.

(** X14.  For a released day without input file, when the input is not in
    the cache and the server answers with a passing status and a body that
    is not empty, the driver sends one request, writes the body as it came
    to the cache file and to the input file of the day, and prints one
    line; no other file changes. *)
Theorem fresh_input_is_cached_and_saved day st status_code c text lat :
  1 <= year (self st) <= 9999 -> 1 <= day <= 31 ->
  release_instant (year (self st)) day < clock (world st) ->
  files (world st) !! input_file day = None ->
  files (world st) !! cache_file (session_id (self st)) (input_url (year (self st)) day)
  = None ->
  server (world st) (length (sent (world st))) (input_url (year (self st)) day)
    (session_id (self st))
  = {| outcome := Response status_code (String c text); latency := lat |} ->
  status_fails status_code = false ->
  exists st',
    sync_input day st = (Return tt, st')
    /\ files (world st') !! input_file day = Some (String c text)
    /\ files (world st')
       !! cache_file (session_id (self st)) (input_url (year (self st)) day)
       = Some (String c text)
    /\ sent (world st')
       = (input_url (year (self st)) day, session_id (self st)) :: sent (world st)
    /\ (exists line, stdout (world st') = line :: stdout (world st))
    /\ (forall p,
           p <> input_file day ->
           p <> cache_file (session_id (self st)) (input_url (year (self st)) day) ->
           files (world st') !! p = files (world st) !! p).
Proof.
  intros Hy Hd Hc Hin Hmiss Hsrv Hok.
  unfold sync_input. unfold bind at 1, get. cbn [fst snd].
  rewrite (proj2 (file_exists_false _ _) Hin).
  unfold bind at 1. rewrite (download_input_released day st Hy Hd Hc).
  rewrite (download_file_miss_ok _ _ _ _ _ Hmiss Hsrv Hok).
  cbn [Text.truthy]. unfold bind.
  cbn [in_world file_write print fst snd world self].
  eexists. split; [reflexivity|].
  cbn [world files set_files set_stdout sent stdout].
  rewrite requested_files, requested_sent. repeat split.
  - apply lookup_insert_eq.
  - rewrite lookup_insert_ne by discriminate. apply lookup_insert_eq.
  - eexists. reflexivity.
  - intros p Hp1 Hp2. rewrite !lookup_insert_ne by congruence. reflexivity.
Qed.

Lemma fresh_input_is_cached_and_saved_witness :
  exists st',
    sync_input 1 (a_state ∅ (answers 200 "1721")) = (Return tt, st')
    /\ files (world st') !! input_file 1 = Some "1721"
    /\ sent (world st') = [(input_url 2020 1, "53616c")].
Proof.
  destruct (fresh_input_is_cached_and_saved 1 (a_state ∅ (answers 200 "1721"))
              200 "1" "721" 250000%N)
    as (st' & H1 & H2 & _ & H4 & _);
    try (vm_compute; reflexivity); try (vm_compute; split; discriminate).
  exists st'. split; [exact H1|]. split; [exact H2|exact H4].
Defined.

(** X15.  An empty input is never saved.  For a released day without input
    file: when the server answers with a passing status and an empty body,
    the driver writes the empty cache file and no input file; and from then
    on, with the empty file in the cache, the step of the day returns
    without a request and without a write, run after run. *)
Theorem empty_input_is_never_saved day st :
  1 <= year (self st) <= 9999 -> 1 <= day <= 31 ->
  release_instant (year (self st)) day < clock (world st) ->
  files (world st) !! input_file day = None ->
  (forall status_code lat,
      files (world st) !! cache_file (session_id (self st)) (input_url (year (self st)) day)
      = None ->
      server (world st) (length (sent (world st))) (input_url (year (self st)) day)
        (session_id (self st))
      = {| outcome := Response status_code EmptyString; latency := lat |} ->
      status_fails status_code = false ->
      exists st',
        sync_input day st = (Return tt, st')
        /\ files (world st') !! input_file day = None
        /\ files (world st')
           !! cache_file (session_id (self st')) (input_url (year (self st')) day)
           = Some EmptyString
        /\ sync_input day st' = (Return tt, st'))
  /\ (files (world st) !! cache_file (session_id (self st)) (input_url (year (self st)) day)
      = Some EmptyString ->
      sync_input day st = (Return tt, st)).
Proof.
  intros Hy Hd Hc Hin.
  assert (Hcached : forall st,
             1 <= year (self st) <= 9999 ->
             release_instant (year (self st)) day < clock (world st) ->
             files (world st) !! input_file day = None ->
             files (world st)
             !! cache_file (session_id (self st)) (input_url (year (self st)) day)
             = Some EmptyString ->
             sync_input day st = (Return tt, st)).
  { clear - Hd. intros st Hy Hc Hin Hhit.
    unfold sync_input. unfold bind at 1, get. cbn [fst snd].
    rewrite (proj2 (file_exists_false _ _) Hin).
    unfold bind at 1. rewrite (download_input_released day st Hy Hd Hc).
    rewrite (download_file_hit _ _ _ Hhit). reflexivity. }
  split; [|apply Hcached; assumption].
  intros sc lat Hmiss Hsrv Hok.
  assert (E : sync_input day st
              = (Return tt,
                 {| self := self (requested (input_url (year (self st)) day) st);
                    world := set_files
                               (insert (cache_file (session_id (self st))
                                          (input_url (year (self st)) day)) EmptyString)
                               (world (requested (input_url (year (self st)) day) st)) |})).
  { unfold sync_input. unfold bind at 1, get. cbn [fst snd].
    rewrite (proj2 (file_exists_false _ _) Hin).
    unfold bind at 1. rewrite (download_input_released day st Hy Hd Hc).
    rewrite (download_file_miss_ok _ _ _ _ _ Hmiss Hsrv Hok). reflexivity. }
  eexists. split; [exact E|].
  destruct (requested_self_fields (input_url (year (self st)) day) st) as [Hy' _].
  pose proof (requested_session (input_url (year (self st)) day) st) as Hs'.
  pose proof (completion_time_ge (input_url (year (self st)) day) st) as [Hct _].
  assert (Hin' : files (set_files
                          (insert (cache_file (session_id (self st))
                                     (input_url (year (self st)) day)) EmptyString)
                          (world (requested (input_url (year (self st)) day) st)))
                 !! input_file day = None).
  { cbn [files set_files]. rewrite lookup_insert_ne by discriminate.
    rewrite requested_files. exact Hin. }
  assert (Hhit' : files (set_files
                          (insert (cache_file (session_id (self st))
                                     (input_url (year (self st)) day)) EmptyString)
                          (world (requested (input_url (year (self st)) day) st)))
                  !! cache_file (session_id (self st)) (input_url (year (self st)) day)
                  = Some EmptyString).
  { cbn [files set_files]. apply lookup_insert_eq. }
  cbn [self world]. rewrite Hy', Hs'. split; [exact Hin'|]. split; [exact Hhit'|].
  apply Hcached; cbn [self world]; rewrite ?Hy', ?Hs'; try assumption.
  cbn [clock set_files]. rewrite requested_clock. lia.
Qed.

Lemma empty_input_is_never_saved_witness :
  exists st',
    sync_input 1 st_empty_body = (Return tt, st')
    /\ files (world st') !! input_file 1 = None
    /\ sync_input 1 st' = (Return tt, st').
Proof.
  destruct (proj1 (empty_input_is_never_saved 1 st_empty_body
                     ltac:(vm_compute; split; discriminate)
                     ltac:(lia)
                     ltac:(vm_compute; reflexivity)
                     ltac:(vm_compute; reflexivity))
              200 250000%N
              ltac:(vm_compute; reflexivity)
              ltac:(vm_compute; reflexivity)
              ltac:(vm_compute; reflexivity))
    as (st' & H1 & H2 & _ & H4).
  exists st'. auto.
Defined.

(** ** The pace of a run *)

Lemma keeps_pace_ret {A} st0 (a : A) : keeps_pace st0 (ret a).
Proof. intros st Hp Ht. split; [exact Hp|]. intros _ _. exact Ht. Qed.

Lemma keeps_pace_raise {A} st0 e : keeps_pace st0 (@raise State A e).
Proof. intros st Hp Ht. split; [exact Hp|]. intros a. discriminate. Qed.

Lemma keeps_pace_bind {A B} st0 (m : M State A) (f : A -> M State B) :
  keeps_pace st0 m -> (forall a, keeps_pace st0 (f a)) -> keeps_pace st0 (bind m f).
Proof.
  intros Hm Hf st Hp Ht. destruct (Hm st Hp Ht) as [Hp' Ht']. unfold bind.
  destruct (m st) as [[a|e] st']; cbn [fst snd] in *.
  - apply Hf; [exact Hp'|]. apply (Ht' a). reflexivity.
  - split; [exact Hp'|]. intros b. discriminate.
Qed.

Lemma keeps_pace_for_each {A} st0 (l : list A) (body : A -> M State unit) :
  (forall a, In a l -> keeps_pace st0 (body a)) -> keeps_pace st0 (for_each l body).
Proof.
  induction l as [|a l IH]; intros Hbody; cbn [for_each].
  - apply keeps_pace_ret.
  - apply keeps_pace_bind; [apply Hbody; left; reflexivity|].
    intros _. apply IH. intros b Hb. apply Hbody. right. exact Hb.
Qed.

(** A step that sends nothing and leaves the clock and the downloader
    alone. *)
Lemma keeps_pace_still {A} st0 (m : M State A) :
  (forall st, self (snd (m st)) = self st
              /\ sent (world (snd (m st))) = sent (world st)
              /\ clock (world (snd (m st))) = clock (world st)) ->
  keeps_pace st0 m.
Proof.
  intros H st [Hp Hc] Ht. destruct (H st) as (Hself & Hsent & Hclock).
  split; [split|].
  - rewrite Hself. exact Hp.
  - unfold requests_between in *. rewrite Hsent, Hclock. exact Hc.
  - intros _ _. unfold throttled, requests_between in *. rewrite Hself, Hsent. exact Ht.
Qed.

Lemma keeps_pace_write st0 p text : keeps_pace st0 (in_world (file_write p text)).
Proof. apply keeps_pace_still. intros st. repeat split. Qed.

Lemma keeps_pace_print st0 line : keeps_pace st0 (in_world (print line)).
Proof. apply keeps_pace_still. intros st. repeat split. Qed.

Lemma keeps_pace_problem_released st0 day : keeps_pace st0 (problem_released day).
Proof.
  apply keeps_pace_still. intros st. rewrite problem_released_state. repeat split.
Qed.

Lemma keeps_pace_download_file st0 url : keeps_pace st0 (download_file url).
Proof.
  intros st [Hp Hc] Ht.
  destruct (files (world st) !! cache_file (session_id (self st)) url) as [data|] eqn:E.
  - rewrite (download_file_hit _ _ _ E). cbn [fst snd].
    split; [split; assumption|]. intros _ _. exact Ht.
  - rewrite (download_file_miss _ _ E).
    assert (Hn : requests_between st0 (requested url st) = requests_between st0 st + 1).
    { unfold requests_between. rewrite requested_sent. cbn [length]. lia. }
    assert (Hclock : clock (world st0)
                     + throttle_period (self st0) * requests_between st0 st
                     <= clock (world (requested url st))).
    { rewrite requested_clock. pose proof (completion_time_ge url st).
      unfold throttled in Ht. lia. }
    assert (Hpaced : paced st0 (requested url st)).
    { split.
      - rewrite (proj2 (requested_self_fields url st)). exact Hp.
      - rewrite Hn. replace (requests_between st0 st + 1 - 1)
          with (requests_between st0 st) by lia. exact Hclock. }
    assert (Hready : forall sc text,
               outcome (server (world st) (length (sent (world st))) url
                          (session_id (self st))) = Response sc text ->
               throttled st0 (requested url st)).
    { intros sc text Hout. unfold throttled. rewrite Hn.
      rewrite requested_clock in Hclock.
      unfold requested. rewrite Hout. cbn [self set_wait_until wait_until].
      fold (completion_time url st). rewrite Hp. lia. }
    destruct (outcome _) as [sc text|] eqn:Hout;
      [destruct (status_fails sc)|]; cbn [fst snd].
    + split; [exact Hpaced|]. intros a. discriminate.
    + destruct Hpaced as [H1 H2]. split; [split; [exact H1|exact H2]|].
      intros _ _. exact (Hready sc text eq_refl).
    + split; [exact Hpaced|]. intros a. discriminate.
Qed.

Lemma keeps_pace_get {B} st0 (f : State -> M State B) :
  (forall s, keeps_pace st0 (f s)) -> keeps_pace st0 (bind get f).
Proof.
  apply keeps_pace_bind. apply keeps_pace_still. intros st. repeat split.
Qed.

Lemma keeps_pace_download_input st0 day : keeps_pace st0 (download_input day).
Proof.
  unfold download_input. apply keeps_pace_bind; [apply keeps_pace_problem_released|].
  intros released. destruct (negb released); [apply keeps_pace_ret|].
  apply keeps_pace_get. intros st.
  apply keeps_pace_bind; [apply keeps_pace_download_file|].
  intros text. apply keeps_pace_ret.
Qed.

Lemma keeps_pace_download_examples bs4 st0 day :
  keeps_pace st0 (download_examples bs4 day).
Proof.
  unfold download_examples. apply keeps_pace_bind; [apply keeps_pace_problem_released|].
  intros released. destruct (negb released); [apply keeps_pace_ret|].
  apply keeps_pace_get. intros st.
  apply keeps_pace_bind; [apply keeps_pace_download_file|].
  intros html. apply keeps_pace_bind; [|intros; apply keeps_pace_ret].
  apply keeps_pace_still. intros st'. repeat split.
Qed.

Lemma keeps_pace_sync_examples bs4 st0 day : keeps_pace st0 (sync_examples bs4 day).
Proof.
  unfold sync_examples. apply keeps_pace_get. intros st.
  destruct (glob_examples day (world st)); [|apply keeps_pace_ret].
  apply keeps_pace_bind; [apply keeps_pace_download_examples|].
  intros [examples|]; [|apply keeps_pace_raise].
  apply keeps_pace_for_each. intros [i example] _.
  apply keeps_pace_bind; [apply keeps_pace_write|]. intros _. apply keeps_pace_print.
Qed.

Lemma keeps_pace_sync_input st0 day : keeps_pace st0 (sync_input day).
Proof.
  unfold sync_input. apply keeps_pace_get. intros st.
  destruct (file_exists (input_file day) (world st)); [apply keeps_pace_ret|].
  apply keeps_pace_bind; [apply keeps_pace_download_input|].
  intros [text|]; [|apply keeps_pace_ret].
  destruct (Text.truthy text); [|apply keeps_pace_ret].
  apply keeps_pace_bind; [apply keeps_pace_write|]. intros _. apply keeps_pace_print.
Qed.

(** X25.  The throttle paces the whole run: a run of the driver that sends
    [n] requests lasts at least [n - 1] throttle periods of five seconds,
    whatever the server answers and however the run ends. *)
Theorem run_is_paced bs4 w sid :
  environ w !! "AOC_SESSION_ID" = Some sid ->
  clock w
  + Datetime.timedelta_seconds 5
    * (Z.of_nat (length (sent (snd (main bs4 w)))) - Z.of_nat (length (sent w)) - 1)
  <= clock (snd (main bs4 w)).
Proof.
  intros Henv. rewrite main_unfold, Henv. cbv zeta. cbn [snd].
  set (st0 := {| self := _; world := w |}).
  assert (H : keeps_pace st0 (for_each (range 1 26) (sync_examples bs4) ;;
                              for_each (range 1 26) sync_input)).
  { apply keeps_pace_bind.
    - apply keeps_pace_for_each. intros day _. apply keeps_pace_sync_examples.
    - intros _. apply keeps_pace_for_each. intros day _. apply keeps_pace_sync_input. }
  destruct (H st0) as [[_ Hc] _].
  - split; [reflexivity|]. unfold requests_between.
    replace (Z.of_nat (length (sent (world st0))) - Z.of_nat (length (sent (world st0))) - 1)
      with (-1) by lia.
    cbn [st0 self world throttle_period]. unfold default_throttle_period.
    change (Datetime.timedelta_seconds 5) with 5000000. lia.
  - unfold throttled, requests_between.
    replace (Z.of_nat (length (sent (world st0))) - Z.of_nat (length (sent (world st0))))
      with 0 by lia.
    cbn [st0 self world wait_until]. lia.
  - unfold requests_between in Hc. cbn [st0 self world throttle_period] in Hc.
    exact Hc.
Qed.

Lemma run_is_paced_witness :
  mid_december
  + Datetime.timedelta_seconds 5
    * (Z.of_nat (length (sent (snd (main (parse_as article)
                                      (a_world ∅ (answers 200 "1721"))))))
       - 0 - 1)
  <= clock (snd (main (parse_as article) (a_world ∅ (answers 200 "1721")))).
Proof.
  apply (run_is_paced (parse_as article) (a_world ∅ (answers 200 "1721")) "53616c").
  vm_compute. reflexivity.
Defined.

(** ** A page that cannot be had *)

Lemma download_file_failure url st e :
  files (world st) !! cache_file (session_id (self st)) url = None ->
  failure (server (world st) (length (sent (world st))) url (session_id (self st)))
  = Some e ->
  download_file url st = (Raise e, requested url st).
Proof.
  intros Hmiss He. rewrite (download_file_miss url st Hmiss). unfold failure in He.
  destruct (outcome _) as [sc text|]; [destruct (status_fails sc)|];
    congruence.
Qed.

Lemma sync_examples_fails bs4 day st e st1 :
  glob_examples day (world st) = [] ->
  problem_released day st = (Return true, st) ->
  download_file (puzzle_url (year (self st)) day) st = (Raise e, st1) ->
  sync_examples bs4 day st = (Raise e, st1).
Proof.
  intros Hglob Hrel Hdl.
  assert (E : download_examples bs4 day st = (Raise e, st1)).
  { unfold download_examples, bind, get. rewrite Hrel. simpl. rewrite Hdl. reflexivity. }
  unfold sync_examples. unfold bind at 1, get. cbn [fst snd].
  rewrite Hglob. unfold bind at 1. rewrite E. reflexivity.
Qed.

(** X24.  A page that cannot be had ends the run: when the days before
    [day] have their example files, [day] has none, its puzzle is released
    and its page is not in the cache, a failing status for the page is
    raised by the driver as [HTTPError] and an unreachable server as
    [ConnectionError]; the request was sent and its time has passed, no file
    was written and nothing was printed, and the days after [day] and the
    input pass are not reached. *)
Theorem failed_page_aborts_run bs4 w sid day e :
  environ w !! "AOC_SESSION_ID" = Some sid ->
  1 <= day <= 25 ->
  (forall d, 1 <= d < day -> glob_examples d w <> []) ->
  glob_examples day w = [] ->
  release_instant 2020 day < clock w ->
  files w !! cache_file sid (puzzle_url 2020 day) = None ->
  failure (server w (length (sent w)) (puzzle_url 2020 day) sid) = Some e ->
  main bs4 w
  = (Raise e,
     set_sent ((puzzle_url 2020 day, sid) :: sent w)
       (set_clock
          (clock w
           + Z.of_N (latency (server w (length (sent w)) (puzzle_url 2020 day) sid)))
          w)).
Proof.
  intros Henv Hd Hbefore Hglob Hc Hmiss He. rewrite main_unfold, Henv. cbv zeta.
  set (st0 := {| self := _; world := w |}).
  pose proof (download_file_failure (puzzle_url 2020 day) st0 e Hmiss He) as Hdl.
  assert (E : for_each (range 1 26) (sync_examples bs4) st0
              = (Raise e, requested (puzzle_url 2020 day) st0)).
  { rewrite (range_split day Hd). apply for_each_skip_stop.
    - intros d Hin. apply in_range in Hin. apply sync_examples_skip, Hbefore. lia.
    - apply sync_examples_fails; [exact Hglob| |exact Hdl].
      rewrite problem_released_spec by (cbn [st0 self year]; lia).
      cbn [st0 self world year].
      replace (_ <? _) with true by (symmetry; apply Z.ltb_lt; exact Hc).
      reflexivity. }
  unfold bind. rewrite E. cbn [fst snd]. f_equal.
  unfold requested. cbn [st0 self world session_id wait_until].
  rewrite Z.max_id. reflexivity.
Qed.

Lemma failed_page_aborts_run_witness :
  fst (main (parse_as article) w_december_down) = Raise (HTTPError 503).
Proof.
  rewrite (failed_page_aborts_run (parse_as article) w_december_down "53616c" 1
             (HTTPError 503)
             ltac:(vm_compute; reflexivity)
             ltac:(lia)
             ltac:(intros d Hd; lia)
             ltac:(vm_compute; reflexivity)
             ltac:(vm_compute; reflexivity)
             ltac:(vm_compute; reflexivity)
             ltac:(vm_compute; reflexivity)).
  reflexivity.
Defined.

(** * Further properties of the template expander *)

Lemma template_main_run w data :
  files w !! Template.solution_file 1 = Some data ->
  Template.main w
  = for_each (seqZ 2 24)
      (fun day => file_write (Template.solution_file day)
                    (Template.expand day (Text.universal_newlines data))) w.
Proof.
  intros Hdata. unfold Template.main, bind, file_read. rewrite Hdata. reflexivity.
Qed.

Lemma template_main_missing w :
  files w !! Template.solution_file 1 = None ->
  Template.main w = (Raise FileNotFoundError, w).
Proof.
  intros Hnone. unfold Template.main, bind, file_read. rewrite Hnone. reflexivity.
Qed.

Lemma solution_file_in p :
  In p (map Template.solution_file (seqZ 2 24))
  <-> exists day, 2 <= day <= 25 /\ p = Template.solution_file day.
Proof.
  rewrite in_map_iff. split.
  - intros (day & <- & Hin). exists day. split; [|reflexivity].
    apply list_elem_of_In, elem_of_seqZ in Hin. lia.
  - intros (day & Hd & ->). exists day. split; [reflexivity|].
    apply list_elem_of_In, elem_of_seqZ. lia.
Qed.

Lemma template_is_no_target :
  ~ In (Template.solution_file 1) (map Template.solution_file (seqZ 2 24)).
Proof.
  rewrite <- list_elem_of_In.
  apply (bool_decide_unpack
           (Template.solution_file 1 ∉ map Template.solution_file (seqZ 2 24))).
  vm_compute. exact I.
Qed.

Lemma for_each_write_frame {A} (f : A -> path) (g : A -> string) l w :
  sent (snd (for_each l (fun a => file_write (f a) (g a)) w)) = sent w
  /\ stdout (snd (for_each l (fun a => file_write (f a) (g a)) w)) = stdout w
  /\ clock (snd (for_each l (fun a => file_write (f a) (g a)) w)) = clock w.
Proof.
  revert w. induction l as [|a l IH]; intros w; [repeat split|].
  cbn [for_each]. unfold bind, file_write at 1 3 5. cbn [fst snd].
  destruct (IH (set_files (insert (f a) (g a)) w)) as (H1 & H2 & H3).
  rewrite H1, H2, H3. repeat split.
Qed.

Lemma template_main_frame w :
  sent (snd (Template.main w)) = sent w
  /\ stdout (snd (Template.main w)) = stdout w
  /\ clock (snd (Template.main w)) = clock w.
Proof.
  destruct (files w !! Template.solution_file 1) as [data|] eqn:E.
  - rewrite (template_main_run w data E).
    apply (for_each_write_frame Template.solution_file).
  - rewrite (template_main_missing w E). repeat split.
Qed.

Lemma template_main_other w p :
  (forall day, 2 <= day <= 25 -> p <> Template.solution_file day) ->
  files (snd (Template.main w)) !! p = files w !! p.
Proof.
  intros Hp. destruct (files w !! Template.solution_file 1) as [data|] eqn:E.
  - rewrite (template_main_run w data E).
    apply (for_each_write_other Template.solution_file).
    intros Hin. apply solution_file_in in Hin as (day & Hd & ->).
    exact (Hp day Hd eq_refl).
  - rewrite (template_main_missing w E). reflexivity.
Qed.

(** X18.  Without the solution file of day 1 there is nothing to expand:
    the script raises [FileNotFoundError] where it opens the template, and
    no file is written. *)
Theorem template_missing_writes_nothing w :
  files w !! Template.solution_file 1 = None ->
  Template.main w = (Raise FileNotFoundError, w).
Proof. apply template_main_missing. Qed.

Lemma template_missing_writes_nothing_witness :
  Template.main (a_world ∅ (answers 200 "ok"))
  = (Raise FileNotFoundError, a_world ∅ (answers 200 "ok")).
Proof.
  apply (template_missing_writes_nothing (a_world ∅ (answers 200 "ok"))).
  vm_compute. reflexivity.
Defined.

(** X19.  The expander writes the solution files of the days 2 to 25 and
    nothing else: every other path, the template of day 1 among them, holds
    afterwards what it held before; and the script sends nothing and prints
    nothing. *)
Theorem template_run_touches_only_day_files w p :
  (forall day, 2 <= day <= 25 -> p <> Template.solution_file day) ->
  files (snd (Template.main w)) !! p = files w !! p
  /\ files (snd (Template.main w)) !! Template.solution_file 1
     = files w !! Template.solution_file 1
  /\ sent (snd (Template.main w)) = sent w
  /\ stdout (snd (Template.main w)) = stdout w
  /\ clock (snd (Template.main w)) = clock w.
Proof.
  intros Hp. split; [apply template_main_other, Hp|].
  split; [|apply template_main_frame].
  apply template_main_other. intros day Hd E.
  apply template_is_no_target, solution_file_in. eauto.
Qed.

Lemma template_run_touches_only_day_files_witness :
  files (snd (Template.main w_bare_template)) !! input_file 1
  = files w_bare_template !! input_file 1.
Proof.
  apply (proj1 (template_run_touches_only_day_files w_bare_template (input_file 1)
                  ltac:(intros day Hd; discriminate))).
Defined.

(** X20.  A second run of the expander changes nothing: the template is not
    among the files it writes, so that the second run reads the same
    template and writes the same texts over the files of the first; the
    files after two runs are the files after one. *)
Theorem template_run_is_idempotent w :
  files (snd (Template.main (snd (Template.main w)))) = files (snd (Template.main w)).
Proof.
  destruct (files w !! Template.solution_file 1) as [data|] eqn:E.
  - assert (E1 : files (snd (Template.main w)) !! Template.solution_file 1 = Some data).
    { rewrite <- E. apply template_main_other. intros day Hd H.
      apply template_is_no_target, solution_file_in. eauto. }
    apply map_eq. intros p.
    destruct (decide (p ∈ map Template.solution_file (seqZ 2 24))) as [Hin|Hout].
    + apply list_elem_of_In, solution_file_in in Hin as (day & Hd & ->).
      rewrite (proj2 (template_main_writes _ data day E1 Hd)).
      rewrite (proj2 (template_main_writes _ data day E Hd)). reflexivity.
    + apply template_main_other. intros day Hd ->.
      apply Hout, list_elem_of_In, solution_file_in. eauto.
  - rewrite (template_main_missing w E). cbn [snd].
    rewrite (template_main_missing w E). reflexivity.
Qed.

(** * Further properties of the search for the repository root *)

Lemma above_snoc mid l x :
  above mid (l ++ [x])%list -> mid = l \/ above mid l.
Proof.
  intros (below & Hb & E).
  destruct (exists_last Hb) as (b' & y & ->).
  rewrite app_assoc in E. apply app_inj_tail in E as [-> <-].
  destruct b' as [|z b']; [left; rewrite app_nil_r; reflexivity|].
  right. exists (z :: b'). split; [discriminate|reflexivity].
Qed.

Lemma walk_up_nearest has_cargo_toml upwards dir :
  Utils.walk_up has_cargo_toml upwards = Return dir ->
  forall mid, above dir mid -> above mid (rev upwards) -> has_cargo_toml mid = false.
Proof.
  induction upwards as [|x parent IH]; cbn [Utils.walk_up rev]; [discriminate|].
  destruct (has_cargo_toml (rev parent)) eqn:E.
  - intros [= <-] mid (b1 & Hb1 & ->) Hmid.
    apply above_snoc in Hmid as [Hmid|(b2 & Hb2 & Hmid)].
    + apply (f_equal (@length string)) in Hmid. rewrite length_app in Hmid.
      destruct b1; [contradiction|]. cbn [length] in Hmid. lia.
    + apply (f_equal (@length string)) in Hmid. rewrite !length_app in Hmid.
      destruct b1; [contradiction|]. cbn [length] in Hmid. lia.
  - intros H mid Hdir Hmid. apply above_snoc in Hmid as [->|Hmid]; [exact E|].
    exact (IH H mid Hdir Hmid).
Qed.

Lemma walk_up_raises has_cargo_toml upwards :
  Utils.walk_up has_cargo_toml upwards = Raise RuntimeError
  <-> forall dir, above dir (rev upwards) -> has_cargo_toml dir = false.
Proof.
  induction upwards as [|x parent IH]; cbn [Utils.walk_up rev].
  - split; [|reflexivity]. intros _ dir (below & Hb & E).
    destruct dir; destruct below; try discriminate. contradiction.
  - destruct (has_cargo_toml (rev parent)) eqn:E.
    + split; [discriminate|]. intros H.
      rewrite (H (rev parent)) in E; [discriminate|].
      exists [x]. split; [discriminate|reflexivity].
    + rewrite IH. split.
      * intros H dir Hdir. apply above_snoc in Hdir as [->|Hdir]; [exact E|auto].
      * intros H dir (below & Hb & Hd). apply H.
        exists (below ++ [x])%list. split; [destruct below; discriminate|].
        rewrite Hd, <- app_assoc. reflexivity.
Qed.

Lemma walk_up_exn has_cargo_toml upwards e :
  Utils.walk_up has_cargo_toml upwards = Raise e -> e = RuntimeError.
Proof.
  induction upwards as [|x parent IH]; cbn [Utils.walk_up].
  - intros [= <-]. reflexivity.
  - destruct (has_cargo_toml (rev parent)); [discriminate|exact IH].
Qed.

(** X21.  The directory [get_repo_dir] returns is the nearest one above the
    script that holds a [Cargo.toml]: it holds one, it lies above the
    script, and no directory between it and the script holds one. *)
Theorem repo_dir_is_nearest has_cargo_toml script dir :
  Utils.get_repo_dir has_cargo_toml script = Return dir ->
  has_cargo_toml dir = true
  /\ above dir script
  /\ (forall mid, above dir mid -> above mid script -> has_cargo_toml mid = false).
Proof.
  unfold Utils.get_repo_dir. intros H. split; [|split].
  - apply (walk_up_found _ _ _ H).
  - destruct (walk_up_found _ _ _ H) as (_ & below & Hb & E).
    rewrite rev_involutive in E. exists below. auto.
  - intros mid Hdir Hmid. apply (walk_up_nearest _ _ _ H mid Hdir).
    rewrite rev_involutive. exact Hmid.
Qed.

Lemma repo_dir_is_nearest_witness :
  in_aoc_or_home ["home"; "me"; "aoc"] = true
  /\ above ["home"; "me"; "aoc"] a_script
  /\ (forall mid, above ["home"; "me"; "aoc"] mid -> above mid a_script ->
                  in_aoc_or_home mid = false).
Proof.
  apply (repo_dir_is_nearest in_aoc_or_home a_script ["home"; "me"; "aoc"]).
  vm_compute. reflexivity.
Defined.

(** X22.  [get_repo_dir] raises exactly when no directory above the script,
    the filesystem root included, holds a [Cargo.toml], and the only
    exception it raises is [RuntimeError]. *)
Theorem repo_dir_error_iff_no_marker has_cargo_toml script :
  (Utils.get_repo_dir has_cargo_toml script = Raise RuntimeError
   <-> forall dir, above dir script -> has_cargo_toml dir = false)
  /\ (forall e, Utils.get_repo_dir has_cargo_toml script = Raise e -> e = RuntimeError).
Proof.
  unfold Utils.get_repo_dir. split.
  - rewrite walk_up_raises, rev_involutive. reflexivity.
  - intros e. apply walk_up_exn.
Qed.

Lemma repo_dir_error_iff_no_marker_witness :
  Utils.get_repo_dir (fun _ => false) a_script = Raise RuntimeError.
Proof.
  apply (proj1 (repo_dir_error_iff_no_marker (fun _ => false) a_script)).
  intros dir _. reflexivity.
Defined.
